(** * The content-published worker: rejection, creation and update of posts

    A shallow embedding of the worker that consumes the
    [api.content-published] subscription ([handleRejection], [createPost],
    [updatePost], [getSourcePrivacy], [fixData] and the worker's [handler]),
    over an explicit model of the relational store it talks to.

    JavaScript objects are finite maps from property names to values, the
    tables of the store are finite maps from primary keys to rows, code that
    may throw returns a [Result], and the transaction of the handler rolls
    the store back when its body throws. *)

From stdpp Require Import gmap strings list fin_maps.
From Stdlib Require Import ZArith String Ascii Lia.

Set Warnings "-register-all".
Open Scope string_scope.
Open Scope Z_scope.

(** ** JavaScript values *)

(** The values that flow through the worker.  A [Date] is its time value in
    milliseconds since the epoch, [None] being the Invalid Date.  Numbers
    are the integral ones the payload carries (read time, order, score). *)
Inductive Value : Type :=
| VUndefined
| VNull
| VBool (b : bool)
| VNum (n : Z)
| VStr (s : string)
| VDate (t : option Z)
| VArr (l : list string)
| VObj (o : gmap string Value).

(** [!!v] *)
Definition truthy (v : Value) : bool :=
  match v with
  | VUndefined | VNull => false
  | VBool b => b
  | VNum n => negb (n =? 0)
  | VStr s => negb (String.eqb s "")
  | VDate _ | VArr _ | VObj _ => true
  end.

(** [a || b] *)
Definition js_or (a b : Value) : Value := if truthy a then a else b.

(** [a ?? b] *)
Definition js_coalesce (a b : Value) : Value :=
  match a with
  | VUndefined | VNull => b
  | _ => a
  end.

(** [!!v?.length] *)
Definition has_length (v : Value) : bool :=
  match v with
  | VStr s => negb (String.eqb s "")
  | VArr l => negb (Nat.eqb (List.length l) 0)
  | VObj o => truthy (default VUndefined (o !! "length"))
  | _ => false
  end.

(** [a === b].  Dates, arrays and objects are compared by reference; the
    worker only ever compares a value read from the store with a value
    built from the payload or with a constant, which are never the same
    reference. *)
Definition strict_eq (a b : Value) : bool :=
  match a, b with
  | VUndefined, VUndefined => true
  | VNull, VNull => true
  | VBool x, VBool y => Bool.eqb x y
  | VNum x, VNum y => x =? y
  | VStr x, VStr y => String.eqb x y
  | _, _ => false
  end.

(** An optional payload field read as a value: a missing field is
    [undefined]. *)
Definition of_ostr (o : option string) : Value :=
  match o with Some s => VStr s | None => VUndefined end.

Definition of_obool (o : option bool) : Value :=
  match o with Some b => VBool b | None => VUndefined end.

Definition of_oarr (o : option (list string)) : Value :=
  match o with Some l => VArr l | None => VUndefined end.

(** Property read [o.k] of an object: a missing property is [undefined]. *)
Definition prop (o : gmap string Value) (k : string) : Value :=
  default VUndefined (o !! k).

(** Column read of a row the store returns: a column that holds nothing
    is [null]. *)
Definition col (row : gmap string Value) (k : string) : Value :=
  default VNull (row !! k).

Definition is_undefined (v : Value) : bool :=
  match v with VUndefined => true | _ => false end.

(** The properties of an object that are not [undefined]: what
    [JSON.stringify] writes and what the store's [update] and [save]
    persist. *)
Definition defined_fields (o : gmap string Value) : gmap string Value :=
  filter (λ kv, is_undefined kv.2 = false) o.

(** What is written of a value into a column: an object is written as
    JSON, which has no [undefined] properties. *)
Definition to_column (v : Value) : Value :=
  match v with
  | VObj o => VObj (defined_fields o)
  | _ => v
  end.

(** The columns an entity built from an object is saved as. *)
Definition to_row (o : gmap string Value) : gmap string Value :=
  to_column <$> defined_fields o.

(** [{...v}]: spreading a non-object adds nothing. *)
Definition spread (v : Value) : gmap string Value :=
  match v with VObj o => o | _ => ∅ end.

(** ** Strings *)

(** [s.split(',')] for a one-character separator. *)
Fixpoint split_on (sep : ascii) (s : string) : list string :=
  match s with
  | EmptyString => [EmptyString]
  | String c r =>
      if Ascii.eqb c sep then EmptyString :: split_on sep r
      else match split_on sep r with
           | h :: t => String c h :: t
           | [] => [String c EmptyString]
           end
  end.

(** [l.join(',')] *)
Definition join (sep : string) (l : list string) : string :=
  String.concat sep l.

(** [a >= b] on strings: the order of the code units. *)
Definition string_ge (a b : string) : bool := String.leb b a.

(** ** Dates: [Date.prototype.toISOString] *)

Definition msPerDay : Z := 86400000.

(** The calendar of the language: [Day], [DayFromYear], [YearFromTime],
    [InLeapYear], [MonthFromTime], [DateFromTime] and the time within the
    day. *)
Definition Day (t : Z) : Z := t / msPerDay.

Definition DaysInYear (y : Z) : Z :=
  if negb (y mod 4 =? 0) then 365
  else if negb (y mod 100 =? 0) then 366
  else if negb (y mod 400 =? 0) then 365
  else 366.

Definition DayFromYear (y : Z) : Z :=
  365 * (y - 1970) + (y - 1969) / 4 - (y - 1901) / 100 + (y - 1601) / 400.

(** The largest year [y] with [DayFromYear y <= Day t]: an estimate from the
    mean length of a year, corrected by at most one year. *)
Definition YearFromTime (t : Z) : Z :=
  let y := 1970 + Day t * 400 / 146097 in
  if DayFromYear (y + 1) <=? Day t then y + 1
  else if Day t <? DayFromYear y then y - 1
  else y.

Definition InLeapYear (t : Z) : Z :=
  if DaysInYear (YearFromTime t) =? 366 then 1 else 0.

Definition DayWithinYear (t : Z) : Z := Day t - DayFromYear (YearFromTime t).

Definition MonthFromTime (t : Z) : Z :=
  let d := DayWithinYear t in
  let leap := InLeapYear t in
  if d <? 31 then 0
  else if d <? 59 + leap then 1
  else if d <? 90 + leap then 2
  else if d <? 120 + leap then 3
  else if d <? 151 + leap then 4
  else if d <? 181 + leap then 5
  else if d <? 212 + leap then 6
  else if d <? 243 + leap then 7
  else if d <? 273 + leap then 8
  else if d <? 304 + leap then 9
  else if d <? 334 + leap then 10
  else 11.

Definition DateFromTime (t : Z) : Z :=
  let d := DayWithinYear t in
  let leap := InLeapYear t in
  match MonthFromTime t with
  | 0 => d + 1
  | 1 => d - 30
  | 2 => d - 58 - leap
  | 3 => d - 89 - leap
  | 4 => d - 119 - leap
  | 5 => d - 150 - leap
  | 6 => d - 180 - leap
  | 7 => d - 211 - leap
  | 8 => d - 242 - leap
  | 9 => d - 272 - leap
  | 10 => d - 303 - leap
  | _ => d - 333 - leap
  end.

Definition HourFromTime (t : Z) : Z := t / 3600000 mod 24.
Definition MinFromTime (t : Z) : Z := t / 60000 mod 60.
Definition SecFromTime (t : Z) : Z := t / 1000 mod 60.
Definition msFromTime (t : Z) : Z := t mod 1000.

Definition digit (n : Z) : ascii := ascii_of_N (48 + Z.to_N (n mod 10)).

(** The last [w] decimal digits of [n], most significant first. *)
Fixpoint pad (w : nat) (n : Z) : string :=
  match w with
  | O => EmptyString
  | S w' => pad w' (n / 10) ++ String (digit n) EmptyString
  end.

(** Years 0 to 9999 are written with four digits, all others as an expanded
    year: a sign and six digits. *)
Definition iso_year (y : Z) : string :=
  if (0 <=? y) && (y <=? 9999) then pad 4 y
  else (if y <? 0 then "-" else "+") ++ pad 6 (Z.abs y).

Definition iso_of_time (t : Z) : string :=
  iso_year (YearFromTime t) ++ "-" ++ pad 2 (MonthFromTime t + 1) ++ "-"
    ++ pad 2 (DateFromTime t) ++ "T" ++ pad 2 (HourFromTime t) ++ ":"
    ++ pad 2 (MinFromTime t) ++ ":" ++ pad 2 (SecFromTime t) ++ "."
    ++ pad 3 (msFromTime t) ++ "Z".

(** Results of code that may throw. *)
Inductive Result (A : Type) : Type :=
| Ok (a : A)
| Throw (error : string).
Arguments Ok {A} a.
Arguments Throw {A} error.

Definition bind {A B : Type} (r : Result A) (k : A → Result B) : Result B :=
  match r with
  | Ok a => k a
  | Throw e => Throw e
  end.

Notation "'let!' x ':=' r 'in' k" := (bind r (fun x => k))
  (at level 10, x pattern, r at level 100, k at level 200).

(** What a call returned, when it did not throw. *)
Definition returned {A B : Type} (r : Result (A * B)) : option A :=
  match r with
  | Ok (a, _) => Some a
  | Throw _ => None
  end.

(** The state a transaction leaves: the one its body reached, or, when the
    body threw, the one [s] it started from. *)
Definition committed {A B : Type} (s : B) (r : Result (A * B)) : B :=
  match r with
  | Ok (_, s') => s'
  | Throw _ => s
  end.

(** [v.toISOString()]: a [RangeError] on the Invalid Date, a [TypeError] on
    what is not a date. *)
Definition toISOString (v : Value) : Result string :=
  match v with
  | VDate (Some t) => Ok (iso_of_time t)
  | VDate None => Throw "RangeError: Invalid time value"
  | _ => Throw "TypeError: toISOString is not a function"
  end.

(** ** The payload of a message *)

Module Extra.
Record t : Type := {
  keywords : option (list string);
  questions : option (list string);
  summary : option string;
  description : option string;
  read_time : option Z;
  canonical_url : option string;
  site_twitter : option string;
  creator_twitter : option string;
  toc : Value;
  content_curation : option (list string)
}.
End Extra.

(** The interface [Data].  Every field may be missing from the JSON of the
    message; the two dates arrive as the strings JSON carries. *)
Module Data.
Record t : Type := {
  id : option string;
  post_id : option string;
  url : option string;
  image : option string;
  title : option string;
  content_type : option string;
  reject_reason : option string;
  submission_id : option string;
  source_id : option string;
  origin : option string;
  published_at : option string;
  updated_at : option string;
  paid : option bool;
  order : option Z;
  extra : option Extra.t
}.
End Data.

(** [data?.extra?.f] *)
Definition extra_str (data : Data.t) (f : Extra.t → option string) : Value :=
  match Data.extra data with
  | Some e => of_ostr (f e)
  | None => VUndefined
  end.

Definition extra_arr (data : Data.t) (f : Extra.t → option (list string)) :
    option (list string) :=
  match Data.extra data with
  | Some e => f e
  | None => None
  end.

(** ** The store *)

(** Modelled from the spec: the enumeration [SubmissionStatus], declared with
    the entities, which are not part of the sources at hand; the spec gives
    the states Started, Accepted and Rejected. *)
Inductive SubmissionStatus : Type := Started | Accepted | Rejected.

(** A row of the submission table, keyed by its id in the store. *)
Module Submission.
Record t : Type := {
  userId : string;
  status : SubmissionStatus;
  reason : option string
}.
End Submission.

(** The tables the worker reads and writes.  A post is a row of columns,
    keyed by its id; a source is its privacy flag, keyed by its id; the
    keyword and the question index are sets of pairs of a post id and a
    keyword or a question. *)
Record Store : Type := {
  posts : gmap string (gmap string Value);
  submissions : gmap string Submission.t;
  sources : gmap string bool;
  postKeywords : gset (string * string);
  postQuestions : gset (string * string)
}.

Definition set_posts (st : Store) (p : gmap string (gmap string Value)) :
    Store :=
  {| posts := p; submissions := submissions st; sources := sources st;
     postKeywords := postKeywords st; postQuestions := postQuestions st |}.

Definition set_submissions (st : Store) (s : gmap string Submission.t) :
    Store :=
  {| posts := posts st; submissions := s; sources := sources st;
     postKeywords := postKeywords st; postQuestions := postQuestions st |}.

Definition set_postKeywords (st : Store) (k : gset (string * string)) :
    Store :=
  {| posts := posts st; submissions := submissions st; sources := sources st;
     postKeywords := k; postQuestions := postQuestions st |}.

Definition set_postQuestions (st : Store) (q : gset (string * string)) :
    Store :=
  {| posts := posts st; submissions := submissions st; sources := sources st;
     postKeywords := postKeywords st; postQuestions := q |}.

(** Modelled from the spec: the enumeration [PostType], declared with the
    entities; the spec gives the content types article, freeform, share and
    welcome, and [allowedFieldsMapping] is keyed by [freeform]. *)
Definition PostType_Article : string := "article".
Definition PostType_Freeform : string := "freeform".
Definition PostType_Share : string := "share".
Definition PostType_Welcome : string := "welcome".

(** What a function of the worker returns: [return null] or a plain
    [return]. *)
Inductive Ret : Type := RetNull | RetUndefined.

(** What the worker takes from its surroundings: the constants and the
    helpers it imports, which are declared outside of the sources at hand,
    and the runtime's parser of dates. *)
Record Env : Type := {
  PostOrigin_Squad : string;
  PostOrigin_CommunityPicks : string;
  PostOrigin_Crawler : string;
  UNKNOWN_SOURCE : string;
  bannedAuthors : list string;
  SubmissionFailErrorKeys_GenericError : string;
  SubmissionFailErrorKeys_ScoutIsAuthor : string;
  (** the keys of the table [SubmissionFailErrorMessage] *)
  SubmissionFailErrorMessage_keys : list string;
  (** [findAuthor(entityManager, creatorTwitter)] *)
  findAuthor : Value → Value;
  (** [mergeKeywords(entityManager, keywords)]: the allowed and the merged
      keywords *)
  mergeKeywords : option (list string) → list string * list string;
  parseReadTime : option Z → Value;
  he_decode : string → string;
  (** the time value of [new Date(s)] for a string *)
  Date_parse : string → option Z
}.

(** What one run of the handler draws from its surroundings: the clock at
    each [new Date()] and the id [generateShortId()] returns. *)
Record Ambient : Type := {
  nowMetadataChangedAt : Z;
  nowVisibleAt : Z;
  nowCreatedAt : Z;
  generatedShortId : string
}.

(** The property names every object inherits from [Object.prototype]. *)
Definition Object_prototype : list string :=
  ["constructor"; "__defineGetter__"; "__defineSetter__"; "hasOwnProperty";
   "__lookupGetter__"; "__lookupSetter__"; "isPrototypeOf";
   "propertyIsEnumerable"; "toString"; "valueOf"; "__proto__";
   "toLocaleString"].

(** [key in SubmissionFailErrorMessage]: the operator [in] finds the keys of
    the table and the names the table inherits. *)
Definition in_SubmissionFailErrorMessage (E : Env) (key : string) : bool :=
  bool_decide (key ∈ SubmissionFailErrorMessage_keys E)
  || bool_decide (key ∈ Object_prototype).

(** *** The store's interface *)

(** An object or a row carries the url [u], as its url or as its canonical
    url. *)
Definition has_url (o : gmap string Value) (u : string) : Prop :=
  o !! "url" = Some (VStr u) ∨ o !! "canonicalUrl" = Some (VStr u).

(** SQL's [=] of a column and a parameter: never true on NULL. *)
Definition sql_eq (a b : Value) : bool :=
  match a, b with
  | VStr x, VStr y => String.eqb x y
  | _, _ => false
  end.

(** [getRepository(postType).findOneBy({ id })]: the row with this id when
    it is of the repository's type, as the entity it is read into. *)
Definition findOneBy (st : Store) (postType id : string) :
    option (gmap string Value) :=
  match posts st !! id with
  | Some row =>
      if strict_eq (col row "type") (VStr postType)
      then Some (<["id" := VStr id]> row)
      else None
  | None => None
  end.

(** [getRepository(...).update(criteria, partial)] on one row: the
    properties that are not [undefined] are written. *)
Definition update_row (partial row : gmap string Value) : gmap string Value :=
  to_row partial ∪ row.

(** Modelled from the spec: [updateFlagsStatement], imported from the common
    helpers, which are not part of the sources at hand: an update expression
    that writes the given sub-flags into the stored flags bag and leaves the
    bag's other entries. *)
Definition updateFlagsStatement (update row : gmap string Value) : Value :=
  VObj (defined_fields update ∪ spread (col row "flags")).

(** Modelled from the spec: [addKeywords], imported from the entities: the
    keywords are additively applied to the index of the post. *)
Definition addKeywords (st : Store) (mergedKeywords : list string)
    (postId : string) : Store :=
  set_postKeywords st
    (list_to_set ((λ k, (postId, k)) <$> mergedKeywords) ∪ postKeywords st).

(** Modelled from the spec: [removeKeywords], imported from the entities:
    the listed keywords are removed from the index of the post. *)
Definition removeKeywords (st : Store) (keywords : list string)
    (postId : string) : Store :=
  set_postKeywords st
    (postKeywords st ∖ list_to_set ((λ k, (postId, k)) <$> keywords)).

(** Modelled from the spec: [addQuestions], imported from the entities: the
    questions are additively applied to the index of the post, on an update
    ([existingPost]) as on a creation. *)
Definition addQuestions (st : Store) (questions : list string)
    (postId : string) (existingPost : bool) : Store :=
  set_postQuestions st
    (list_to_set ((λ q, (postId, q)) <$> questions) ∪ postQuestions st).

(** ** The worker *)

Section Worker.
Context (E : Env).

(** [handleRejection]: without a submission id nothing is done; a
    submission that is still Started is saved as Rejected, with the reason
    of the payload when [in] finds it in [SubmissionFailErrorMessage] and
    the generic error otherwise.  ([in] reads a missing reason as the key
    [undefined], and [save] leaves a column alone whose property is
    [undefined].) *)
Definition handleRejection (st : Store) (data : Data.t) : Store :=
  let reject_reason := Data.reject_reason data in
  let submission_id := Data.submission_id data in
  if negb (truthy (of_ostr submission_id)) then st
  else
    let sid := default "" submission_id in
    match submissions st !! sid with
    | Some submission =>
        match Submission.status submission with
        | Started =>
            set_submissions st
              (<[sid :=
                 {| Submission.userId := Submission.userId submission;
                    Submission.status := Rejected;
                    Submission.reason :=
                      if in_SubmissionFailErrorMessage E
                           (default "undefined" reject_reason)
                      then
                        match reject_reason with
                        | Some r => Some r
                        | None => Submission.reason submission
                        end
                      else Some (SubmissionFailErrorKeys_GenericError E) |}]>
                 (submissions st))
        | _ => st
        end
    | None => st
    end.

(** The [where] clause of the duplicate check of [createPost]. *)
Definition url_matches (data row : gmap string Value) : bool :=
  sql_eq (col row "url") (prop data "url")
  || sql_eq (col row "url") (prop data "canonicalUrl")
  || sql_eq (col row "canonicalUrl") (prop data "url")
  || sql_eq (col row "canonicalUrl") (prop data "canonicalUrl").

(** The duplicate check of [createPost]: whether the query for a post whose
    url or canonical url is the url or the canonical url of the payload
    returns a row. *)
Definition existingPost (st : Store) (data : gmap string Value) : bool :=
  bool_decide (map_Exists (λ _ row, url_matches data row = true) (posts st)).

(** The tail of [createPost], once the duplicate check and the submission
    are passed: the post is stamped, saved and indexed.  [postId] is what
    [generateShortId()] returns and [postCreatedAt] the clock at
    [new Date()].  [save] writes the properties of the entity that are not
    [undefined] into the row of its id.  The write is the one of a store
    that takes the row: a row the database refuses (a date column that holds
    the Invalid Date, a broken constraint) makes [save] throw and the
    transaction roll back, which is why what is said of a created post is
    said of a run that returns. *)
Definition createPost_save (st : Store) (data : gmap string Value)
    (mergedKeywords questions : list string)
    (postId : string) (postCreatedAt : Z) : Ret * Store :=
  let data := <["id" := VStr postId]> data in
  let data := <["shortId" := VStr postId]> data in
  let data := <["createdAt" := VDate (Some postCreatedAt)]> data in
  let data := <["score" := VNum (postCreatedAt / (1000 * 60))]> data in
  let data :=
    <["origin" :=
        if truthy (prop data "scoutId")
        then VStr (PostOrigin_CommunityPicks E)
        else js_coalesce (prop data "origin")
               (VStr (PostOrigin_Crawler E))]> data in
  let post := <["type" := VStr PostType_Article]> (to_row data) in
  let st :=
    set_posts st
      (<[postId := post ∪ default ∅ (posts st !! postId)]> (posts st)) in
  let st := addKeywords st mergedKeywords postId in
  let st := addQuestions st questions postId false in
  (RetUndefined, st).

(** [createPost]: the duplicate check, the submission of the payload, and
    then the creation. *)
Definition createPost (st : Store) (data : gmap string Value)
    (submissionId : option string) (mergedKeywords questions : list string)
    (postId : string) (postCreatedAt : Z) : Ret * Store :=
  if existingPost st data then (RetNull, st)
  else if truthy (of_ostr submissionId) then
    let sid := default "" submissionId in
    match submissions st !! sid with
    | Some submission =>
        if strict_eq (prop data "authorId")
             (VStr (Submission.userId submission))
        then
          (RetNull,
           set_submissions st
             (<[sid :=
                {| Submission.userId := Submission.userId submission;
                   Submission.status := Rejected;
                   Submission.reason :=
                     Some (SubmissionFailErrorKeys_ScoutIsAuthor E) |}]>
                (submissions st)))
        else
          createPost_save
            (set_submissions st
               (<[sid :=
                  {| Submission.userId := Submission.userId submission;
                     Submission.status := Accepted;
                     Submission.reason := Submission.reason submission |}]>
                  (submissions st)))
            (<["scoutId" := VStr (Submission.userId submission)]> data)
            mergedKeywords questions postId postCreatedAt
    | None =>
        createPost_save st data mergedKeywords questions postId postCreatedAt
    end
  else createPost_save st data mergedKeywords questions postId postCreatedAt.

Definition allowedFieldsMapping : gmap string (list string) :=
  {[ "freeform" :=
       ["contentCuration"; "description"; "metadataChangedAt"; "readTime";
        "summary"; "tagsStr"] ]}.

(** [contentTypeFromPostType[content_type]]: the repository of a content
    type; any other string has no entity. *)
Definition contentTypeFromPostType (content_type : string) : option string :=
  if String.eqb content_type PostType_Article then Some PostType_Article
  else if String.eqb content_type PostType_Freeform then Some PostType_Freeform
  else if String.eqb content_type PostType_Share then Some PostType_Share
  else if String.eqb content_type PostType_Welcome then Some PostType_Welcome
  else None.

(** The fields [updatePost] keeps for a content type that is a key of
    [allowedFieldsMapping]. *)
Definition allowedFields (fields : list string) : list string :=
  ["id"; "visible"; "visibleAt"; "flags"; "yggdrasilId"] ++ fields.

(** [getRepository(SharePost).update({ sharedPostId: data.id }, ...)]:
    the rows of the share type that wrap post [id] are made visible. *)
Definition update_sharePosts (id : Value) (data : gmap string Value)
    (ps : gmap string (gmap string Value)) : gmap string (gmap string Value) :=
  (λ row,
     if sql_eq (col row "type") (VStr PostType_Share)
        && sql_eq (col row "sharedPostId") id then
       let partial : gmap string Value :=
         <["visible" := VBool true]>
           (<["visibleAt" := prop data "visibleAt"]>
              (<["private" := prop data "private"]> ∅)) in
       <["flags" :=
           updateFlagsStatement
             (<["visible" := VBool true]>
                (<["private" := prop data "private"]>
                   (spread (prop data "flags")))) row]>
         (update_row partial row)
     else row) <$> ps.

(** The tail of [updatePost], once the post is found and the update is not
    stale: the fields are merged, persisted and indexed.  [data.id] is
    [databasePost.id], the [id] the post was found by.  The writes are the
    ones of a store that takes them: an update the database or the entity
    refuses (a date column that holds the Invalid Date, a column the entity
    of the type does not have) makes [update] throw and the transaction roll
    back, which is why what is said of an applied update is said of a run
    that returns. *)
Definition updatePost_merge (st : Store) (data : gmap string Value)
    (id : string) (mergedKeywords questions : list string)
    (content_type : string) (databasePost : gmap string Value) : Store :=
  let title := js_or (prop data "title") (col databasePost "title") in
  let updateBecameVisible :=
    if String.eqb content_type PostType_Freeform
    then col databasePost "visible"
    else VBool (negb (truthy (col databasePost "visible"))
                && has_length title) in
  let data := <["id" := col databasePost "id"]> data in
  let data := <["title" := title]> data in
  let data := <["visible" := updateBecameVisible]> data in
  let data :=
    <["visibleAt" :=
        if truthy updateBecameVisible
        then js_coalesce (col databasePost "visibleAt")
               (prop data "metadataChangedAt")
        else VNull]> data in
  let data :=
    <["sourceId" :=
        js_or (prop data "sourceId") (col databasePost "sourceId")]> data in
  let data :=
    match allowedFieldsMapping !! content_type with
    | Some fields => filter (λ kv, kv.1 ∈ allowedFields fields) data
    | None => data
    end in
  let row := default ∅ (posts st !! id) in
  let st :=
    set_posts st
      (<[id :=
         <["flags" :=
             updateFlagsStatement
               (<["visible" := prop data "visible"]>
                  (spread (prop data "flags"))) row]>
           (update_row data row)]> (posts st)) in
  let st :=
    if truthy updateBecameVisible
    then set_posts st (update_sharePosts (prop data "id") data (posts st))
    else st in
  let st :=
    if negb (strict_eq (col databasePost "tagsStr") (prop data "tagsStr"))
    then
      let st :=
        if has_length (col databasePost "tagsStr")
        then
          removeKeywords st
            (match col databasePost "tagsStr" with
             | VStr s => split_on "," s
             | _ => []
             end)
            id
        else st in
      addKeywords st mergedKeywords id
    else st in
  addQuestions st questions id true.

(** [updatePost].  [content_type] is [None] when the caller passes
    [undefined], which the default parameter replaces by the article
    type.  A post that is not found, or whose [metadataChangedAt] renders
    to an ISO string at or after the one of the payload, is left alone. *)
Definition updatePost (st : Store) (data : gmap string Value) (id : string)
    (mergedKeywords questions : list string) (content_type : option string) :
    Result (Ret * Store) :=
  let content_type := default PostType_Article content_type in
  match contentTypeFromPostType content_type with
  | None => Throw "EntityMetadataNotFoundError"
  | Some postType =>
      let databasePost := findOneBy st postType id in
      let data :=
        if strict_eq (prop data "origin") (VStr (PostOrigin_Squad E))
        then <["sourceId" := VStr (UNKNOWN_SOURCE E)]> data
        else data in
      match databasePost with
      | None => Ok (RetNull, st)
      | Some databasePost =>
          let! stored := toISOString (col databasePost "metadataChangedAt") in
          let! incoming := toISOString (prop data "metadataChangedAt") in
          if string_ge stored incoming then Ok (RetNull, st)
          else
            Ok (RetUndefined,
                updatePost_merge st data id mergedKeywords questions
                  content_type databasePost)
      end
  end.

(** [getSourcePrivacy]: the privacy flag of the source of the payload, or,
    without a usable source id, of the source the post of the payload
    belongs to; [undefined] when there is no such source. *)
Definition getSourcePrivacy (st : Store) (data : Data.t) : Value :=
  let source :=
    if negb (truthy (of_ostr (Data.source_id data)))
       || strict_eq (of_ostr (Data.source_id data)) (VStr (UNKNOWN_SOURCE E))
    then
      match Data.post_id data with
      | Some post_id =>
          match posts st !! post_id with
          | Some row =>
              match col row "sourceId" with
              | VStr source_id => sources st !! source_id
              | _ => None
              end
          | None => None
          end
      | None => None
      end
    else sources st !! default "" (Data.source_id data) in
  of_obool source.

(** What [fixData] returns. *)
Record FixData : Type := {
  fd_mergedKeywords : list string;
  fd_questions : list string;
  fd_content_type : option string;
  fixedData : gmap string Value
}.

Definition fixData (amb : Ambient) (st : Store) (data : Data.t) : FixData :=
  let creatorTwitter :=
    if strict_eq (extra_str data Extra.creator_twitter) (VStr "")
       || strict_eq (extra_str data Extra.creator_twitter) (VStr "@")
    then VNull
    else extra_str data Extra.creator_twitter in
  let authorId := findAuthor E creatorTwitter in
  let privacy := getSourcePrivacy st data in
  let '(allowedKeywords, mergedKeywords) :=
    mergeKeywords E (extra_arr data Extra.keywords) in
  let becomesVisible := has_length (of_ostr (Data.title data)) in
  let showOnFeed :=
    negb (truthy (match Data.order data with
                  | Some n => VNum n
                  | None => VUndefined
                  end)) in
  let sentAnalyticsReport := js_or privacy (VBool (negb (truthy authorId))) in
  {| fd_mergedKeywords := mergedKeywords;
     fd_questions := default [] (extra_arr data Extra.questions);
     fd_content_type := Data.content_type data;
     fixedData :=
       list_to_map
         [("origin", of_ostr (Data.origin data));
          ("authorId", authorId);
          ("creatorTwitter", creatorTwitter);
          ("url", of_ostr (Data.url data));
          ("canonicalUrl",
           js_or (extra_str data Extra.canonical_url)
             (of_ostr (Data.url data)));
          ("image", of_ostr (Data.image data));
          ("sourceId", of_ostr (Data.source_id data));
          ("title",
           match Data.title data with
           | Some s => if truthy (VStr s) then VStr (he_decode E s) else VStr s
           | None => VUndefined
           end);
          ("readTime",
           parseReadTime E
             (match Data.extra data with
              | Some e => Extra.read_time e
              | None => None
              end));
          ("publishedAt",
           match Data.published_at data with
           | Some s =>
               if truthy (VStr s) then VDate (Date_parse E s) else VStr s
           | None => VUndefined
           end);
          ("metadataChangedAt",
           match Data.updated_at data with
           | Some s =>
               if truthy (VStr s) then VDate (Date_parse E s)
               else VDate (Some (nowMetadataChangedAt amb))
           | None => VDate (Some (nowMetadataChangedAt amb))
           end);
          ("visible", VBool becomesVisible);
          ("visibleAt",
           if becomesVisible then VDate (Some (nowVisibleAt amb)) else VNull);
          ("tagsStr",
           js_or (VStr (join "," allowedKeywords)) VNull);
          ("private", privacy);
          ("sentAnalyticsReport", sentAnalyticsReport);
          ("summary", extra_str data Extra.summary);
          ("description", extra_str data Extra.description);
          ("siteTwitter", extra_str data Extra.site_twitter);
          ("toc",
           match Data.extra data with
           | Some e => Extra.toc e
           | None => VUndefined
           end);
          ("contentCuration", of_oarr (extra_arr data Extra.content_curation));
          ("showOnFeed", VBool showOnFeed);
          ("flags",
           VObj
             (list_to_map
                [("private", privacy);
                 ("visible", VBool becomesVisible);
                 ("showOnFeed", VBool showOnFeed);
                 ("sentAnalyticsReport", sentAnalyticsReport)]));
          ("yggdrasilId", of_ostr (Data.id data))] |}.

(** What the body of the transaction did, for the log. *)
Inductive Outcome : Type :=
| HandledRejection
| BannedAuthor
| Created (r : Ret)
| Updated (r : Ret).

(** The body of the transaction of the handler. *)
Definition transaction (amb : Ambient) (st : Store) (data : Data.t) :
    Result (Outcome * Store) :=
  if truthy (of_ostr (Data.reject_reason data))
  then Ok (HandledRejection, handleRejection st data)
  else
    if match extra_str data Extra.creator_twitter with
       | VStr s => bool_decide (s ∈ bannedAuthors E)
       | _ => false
       end
    then Ok (BannedAuthor, st)
    else
      let fixed := fixData amb st data in
      if negb (truthy (of_ostr (Data.post_id data)))
      then
        let '(r, st') :=
          createPost st (fixedData fixed) (Data.submission_id data)
            (fd_mergedKeywords fixed) (fd_questions fixed)
            (generatedShortId amb) (nowCreatedAt amb) in
        Ok (Created r, st')
      else
        let! updated :=
          updatePost st (fixedData fixed) (default "" (Data.post_id data))
            (fd_mergedKeywords fixed) (fd_questions fixed)
            (fd_content_type fixed) in
        Ok (Updated updated.1, updated.2).

(** The handler: the transaction commits what its body did, and is rolled
    back, the error being logged, when the body throws. *)
Definition handler (amb : Ambient) (st : Store) (data : Data.t) : Store :=
  committed st (transaction amb st data).
End Worker.

(** ** Fixtures

    An environment, stores and messages to run the worker on. *)

Definition test_env : Env := {|
  PostOrigin_Squad := "squad";
  PostOrigin_CommunityPicks := "community_picks";
  PostOrigin_Crawler := "crawler";
  UNKNOWN_SOURCE := "unknown";
  bannedAuthors := ["@banned"];
  SubmissionFailErrorKeys_GenericError := "GENERIC_ERROR";
  SubmissionFailErrorKeys_ScoutIsAuthor := "SCOUT_IS_AUTHOR";
  SubmissionFailErrorMessage_keys :=
    ["GENERIC_ERROR"; "SCOUT_IS_AUTHOR"; "PAYWALL"];
  findAuthor :=
    λ handle, if strict_eq handle (VStr "@ido") then VStr "u1" else VNull;
  mergeKeywords := λ keywords, (default [] keywords, default [] keywords);
  parseReadTime :=
    λ n, match n with Some n => VNum n | None => VUndefined end;
  he_decode := λ s, s;
  Date_parse :=
    λ s, if String.eqb s "2024-01-01T00:00:00.000Z" then Some 1704067200000
         else if String.eqb s "2023-01-01T00:00:00.000Z" then Some 1672531200000
         else if String.eqb s "+010000-01-01T00:00:00.000Z"
              then Some 253402300800000
         else None
|}.

Definition test_clock : Ambient := {|
  nowMetadataChangedAt := 1700000000000;
  nowVisibleAt := 1700000000001;
  nowCreatedAt := 1700000000002;
  generatedShortId := "p1"
|}.

Definition test_clock2 : Ambient := {|
  nowMetadataChangedAt := 1700000060000;
  nowVisibleAt := 1700000060001;
  nowCreatedAt := 1700000060002;
  generatedShortId := "p2"
|}.

Definition empty_store : Store := {|
  posts := ∅; submissions := ∅; sources := ∅;
  postKeywords := ∅; postQuestions := ∅
|}.

(** The [extra] of a message with keywords, a creator and a canonical
    url. *)
Definition extra_of (keywords : option (list string))
    (creator_twitter canonical_url summary : option string) : Extra.t := {|
  Extra.keywords := keywords; Extra.questions := None;
  Extra.summary := summary; Extra.description := None;
  Extra.read_time := None; Extra.canonical_url := canonical_url;
  Extra.site_twitter := None; Extra.creator_twitter := creator_twitter;
  Extra.toc := VUndefined; Extra.content_curation := None
|}.

(** A message without a post id: a create event. *)
Definition create_event (url : string) (title submission_id updated_at :
    option string) (extra : Extra.t) : Data.t := {|
  Data.id := Some "y1"; Data.post_id := None; Data.url := Some url;
  Data.image := None; Data.title := title; Data.content_type := None;
  Data.reject_reason := None; Data.submission_id := submission_id;
  Data.source_id := None; Data.origin := None; Data.published_at := None;
  Data.updated_at := updated_at; Data.paid := None; Data.order := None;
  Data.extra := Some extra
|}.

(** A message with a post id: an update event. *)
Definition update_event (post_id : string) (content_type title updated_at :
    option string) (extra : Extra.t) : Data.t := {|
  Data.id := Some "y1"; Data.post_id := Some post_id;
  Data.url := Some "http://x.com";
  Data.image := Some "http://x.com/image.png"; Data.title := title;
  Data.content_type := content_type;
  Data.reject_reason := None; Data.submission_id := None;
  Data.source_id := None; Data.origin := None; Data.published_at := None;
  Data.updated_at := updated_at; Data.paid := None; Data.order := None;
  Data.extra := Some extra
|}.

(** A message with a rejection reason. *)
Definition rejection_event (reject_reason : string)
    (submission_id : option string) : Data.t := {|
  Data.id := Some "y1"; Data.post_id := None; Data.url := Some "http://x.com";
  Data.image := None; Data.title := None; Data.content_type := None;
  Data.reject_reason := Some reject_reason;
  Data.submission_id := submission_id;
  Data.source_id := None; Data.origin := None; Data.published_at := None;
  Data.updated_at := None; Data.paid := None; Data.order := None;
  Data.extra := None
|}.

(** The create event of the spec's scenario, with the keywords [a] and
    [b]. *)
Definition event_hello : Data.t :=
  create_event "http://x.com" (Some "Hello") None None
    (extra_of (Some ["a"; "b"]) None None None).

(** The store after [event_hello]: the one article [p1], visible, tagged
    [a,b], its metadata changed at the clock's 2023-11-14. *)
Definition store_hello : Store :=
  handler test_env test_clock empty_store event_hello.


(** An update of [p1] dated 2023-01-01, before the stored change. *)
Definition event_stale : Data.t :=
  update_event "p1" None (Some "Changed")
    (Some "2023-01-01T00:00:00.000Z")
    (extra_of (Some ["b"; "c"]) None None None).

(** The create event of [event_hello], its metadata dated to the first day
    of the year 10000, and the store after it. *)
Definition event_year_10000 : Data.t :=
  create_event "http://x.com" (Some "Hello") None
    (Some "+010000-01-01T00:00:00.000Z")
    (extra_of (Some ["a"; "b"]) None None None).

Definition store_year_10000 : Store :=
  handler test_env test_clock empty_store event_year_10000.

(** An update of [p1] dated 2024-01-01 with a new title. *)
Definition event_2024 : Data.t :=
  update_event "p1" None (Some "Changed")
    (Some "2024-01-01T00:00:00.000Z")
    (extra_of (Some ["a"; "b"]) None None None).

(** A store with the one freeform post [f1]. *)
Definition store_freeform : Store := {|
  posts :=
    {[ "f1" :=
         list_to_map
           [("type", VStr "freeform"); ("title", VStr "My post");
            ("content", VStr "Written by hand");
            ("sourceId", VStr "squad1");
            ("visible", VBool true);
            ("visibleAt", VDate (Some 1690000000000));
            ("metadataChangedAt", VDate (Some 1690000000000));
            ("flags", VObj {[ "visible" := VBool true ]})] ]};
  submissions := ∅; sources := ∅;
  postKeywords := ∅; postQuestions := ∅
|}.

(** An update of the freeform post that carries a title, an image, a url
    and a summary. *)
Definition event_freeform : Data.t :=
  update_event "f1" (Some "freeform") (Some "Injected")
    (Some "2024-01-01T00:00:00.000Z")
    (extra_of (Some ["b"; "c"]) None None (Some "In short")).

(** A store with the one submission [s1] of user [u1], Started. *)
Definition store_submission : Store := {|
  posts := ∅;
  submissions :=
    {[ "s1" := {| Submission.userId := "u1";
                  Submission.status := Started;
                  Submission.reason := None |} ]};
  sources := ∅; postKeywords := ∅; postQuestions := ∅
|}.

(** The rejection of the spec's scenario, and the store after it. *)
Definition event_failed : Data.t := rejection_event "FAILED" (Some "s1").

Definition store_rejected : Store :=
  handler test_env test_clock store_submission event_failed.

(** A rejection whose reason is the name of a method every object has. *)
Definition event_toString : Data.t := rejection_event "toString" (Some "s1").

(** A create event for the submission [s1], by an author the worker does
    not know. *)
Definition event_submitted : Data.t :=
  create_event "http://y.com" (Some "Picked") (Some "s1") None
    (extra_of None None None None).

(** A create event for the submission [s1] whose author is the user [u1]
    who submitted it. *)
Definition event_own_article : Data.t :=
  create_event "http://x.com" (Some "Mine") (Some "s1") None
    (extra_of None (Some "@ido") None None).

(** The store of [store_hello] with the submission [s1]. *)
Definition store_hello_submission : Store :=
  set_submissions store_hello (submissions store_submission).

(** A create event whose canonical url is the url of [event_hello]. *)
Definition event_canonical : Data.t :=
  create_event "http://m.x.com" (Some "Hello, mobile") None None
    (extra_of None None (Some "http://x.com") None).

(** The field of the row of a post, and the column as the store returns
    it: null when the row holds nothing there. *)
Definition field (st : Store) (id k : string) : option Value :=
  posts st !! id ≫= (.!! k).

Definition column (st : Store) (id k : string) : Value :=
  default VNull (field st id k).

(** The timestamps whose year is written with four digits:
    0000-01-01T00:00:00.000Z to 9999-12-31T23:59:59.999Z. *)
Definition isoMin : Z := -62167219200000.
Definition isoMax : Z := 253402300799999.
Definition four_digit_year (t : Z) : Prop := isoMin <= t <= isoMax.

(** The fields of the rendering of the first timestamp come before those of
    the second, lexicographically. *)
Definition fields_lt (t1 t2 : Z) : Prop :=
  YearFromTime t1 < YearFromTime t2 ∨ YearFromTime t1 = YearFromTime t2 ∧
  (MonthFromTime t1 < MonthFromTime t2 ∨ MonthFromTime t1 = MonthFromTime t2 ∧
  (DateFromTime t1 < DateFromTime t2 ∨ DateFromTime t1 = DateFromTime t2 ∧
  (HourFromTime t1 < HourFromTime t2 ∨ HourFromTime t1 = HourFromTime t2 ∧
  (MinFromTime t1 < MinFromTime t2 ∨ MinFromTime t1 = MinFromTime t2 ∧
  (SecFromTime t1 < SecFromTime t2 ∨ SecFromTime t1 = SecFromTime t2 ∧
  msFromTime t1 < msFromTime t2))))).

(** The keywords [updatePost] removes from the index of a post: those of
    its stored tag string. *)
Definition stored_keywords (tagsStr : Value) : list string :=
  if has_length tagsStr
  then match tagsStr with
       | VStr s => split_on "," s
       | _ => []
       end
  else [].

(** ** More fixtures and notions *)

(** [v == null]: null or undefined. *)
Definition is_nullish (v : Value) : bool :=
  match v with
  | VUndefined | VNull => true
  | _ => false
  end.

(** Whether the character occurs in the string. *)
Fixpoint has_char (c : ascii) (s : string) : bool :=
  match s with
  | EmptyString => false
  | String c' r => Ascii.eqb c' c || has_char c r
  end.

(** A row is a share post that wraps the post [id]. *)
Definition wraps (row : gmap string Value) (id : string) : bool :=
  sql_eq (col row "type") (VStr PostType_Share)
  && sql_eq (col row "sharedPostId") (VStr id).

(** The rows of a share post that wraps the post [a1], and of a visible
    article. *)
Definition row_sh1 : gmap string Value :=
  list_to_map
    [("type", VStr PostType_Share); ("sharedPostId", VStr "a1");
     ("title", VStr "Look at this"); ("visible", VBool false);
     ("metadataChangedAt", VDate (Some 1690000000000))].

Definition row_o1 : gmap string Value :=
  list_to_map
    [("type", VStr PostType_Article); ("title", VStr "Other");
     ("visible", VBool true);
     ("visibleAt", VDate (Some 1680000000000));
     ("metadataChangedAt", VDate (Some 1680000000000))].

(** A store with the hidden article [a1] of the private source [src1], the
    share post [sh1] that wraps it, and the visible article [o1]. *)
Definition store_hidden : Store := {|
  posts :=
    {[ "a1" :=
         list_to_map
           [("type", VStr PostType_Article); ("title", VStr "Draft");
            ("sourceId", VStr "src1"); ("visible", VBool false);
            ("metadataChangedAt", VDate (Some 1690000000000))];
       "sh1" := row_sh1;
       "o1" := row_o1 ]};
  submissions := ∅; sources := {[ "src1" := true ]};
  postKeywords := ∅; postQuestions := ∅
|}.

(** Updates of [a1] dated 2024-01-01: one with a title, one without, one
    under the share type, one of the squad origin that names a source, and
    one whose date does not parse. *)
Definition event_publish : Data.t :=
  update_event "a1" None (Some "Published")
    (Some "2024-01-01T00:00:00.000Z") (extra_of None None None None).

Definition event_untitled : Data.t :=
  update_event "a1" None None
    (Some "2024-01-01T00:00:00.000Z") (extra_of None None None None).

Definition event_as_share : Data.t :=
  update_event "a1" (Some PostType_Share) (Some "Published")
    (Some "2024-01-01T00:00:00.000Z") (extra_of None None None None).

Definition event_squad : Data.t := {|
  Data.id := Some "y1"; Data.post_id := Some "a1";
  Data.url := Some "http://x.com"; Data.image := None;
  Data.title := Some "Published"; Data.content_type := None;
  Data.reject_reason := None; Data.submission_id := None;
  Data.source_id := Some "src9"; Data.origin := Some "squad";
  Data.published_at := None;
  Data.updated_at := Some "2024-01-01T00:00:00.000Z";
  Data.paid := None; Data.order := None; Data.extra := None
|}.

Definition event_bad_date : Data.t :=
  update_event "a1" None (Some "Published") (Some "yesterday")
    (extra_of None None None None).

(** A create event that names the source [src1]. *)
Definition event_sourced : Data.t := {|
  Data.id := Some "y2"; Data.post_id := None;
  Data.url := Some "http://z.com"; Data.image := None;
  Data.title := Some "Sourced"; Data.content_type := None;
  Data.reject_reason := None; Data.submission_id := None;
  Data.source_id := Some "src1"; Data.origin := None;
  Data.published_at := None; Data.updated_at := None;
  Data.paid := None; Data.order := None; Data.extra := None
|}.

(** * Properties *)

(** ** Evaluations *)

Example iso_epoch : iso_of_time 0 = "1970-01-01T00:00:00.000Z".
Proof. reflexivity. Qed.

Example iso_2024_leap : iso_of_time 1709251199999 = "2024-02-29T23:59:59.999Z".
Proof. reflexivity. Qed.

Example iso_before_epoch : iso_of_time (-1) = "1969-12-31T23:59:59.999Z".
Proof. reflexivity. Qed.

Example iso_year_9999 :
  iso_of_time 253402300799999 = "9999-12-31T23:59:59.999Z".
Proof. reflexivity. Qed.

Example iso_year_10000 :
  iso_of_time 253402300800000 = "+010000-01-01T00:00:00.000Z".
Proof. reflexivity. Qed.

Example iso_year_0 : iso_of_time (-62167219200000) = "0000-01-01T00:00:00.000Z".
Proof. reflexivity. Qed.

Example iso_year_minus_1 :
  iso_of_time (-62167219200001) = "-000001-12-31T23:59:59.999Z".
Proof. reflexivity. Qed.

Example iso_2023 : iso_of_time 1672531200000 = "2023-01-01T00:00:00.000Z".
Proof. reflexivity. Qed.

Example iso_2024 : iso_of_time 1704067200000 = "2024-01-01T00:00:00.000Z".
Proof. reflexivity. Qed.

(** The order of the code units puts the sign of an expanded year before
    every digit. *)
Example year_10000_before_2024 :
  string_ge (iso_of_time 253402300800000) (iso_of_time 1704067200000) = false.
Proof. reflexivity. Qed.

Example split_ab : split_on "," "a,b" = ["a"; "b"].
Proof. reflexivity. Qed.

(** ** The rendering of dates *)

(** Linear arithmetic with division and remainder by constants. *)
Ltac zlia := Z.div_mod_to_equations; lia.

Lemma DayFromYear_mono y y' : y <= y' -> DayFromYear y <= DayFromYear y'.
Proof. unfold DayFromYear. intros. zlia. Qed.

Lemma DayFromYear_succ y : DayFromYear (y + 1) = DayFromYear y + DaysInYear y.
Proof.
  unfold DayFromYear, DaysInYear.
  repeat match goal with
         | |- context [negb (?a =? ?b)] => destruct (Z.eqb_spec a b); simpl
         end;
    zlia.
Qed.

Lemma YearFromTime_spec t :
  DayFromYear (YearFromTime t) <= Day t < DayFromYear (YearFromTime t + 1).
Proof.
  unfold YearFromTime. generalize (Day t). intros d.
  destruct (Z.leb_spec (DayFromYear (1970 + d * 400 / 146097 + 1)) d);
  [|destruct (Z.ltb_spec d (DayFromYear (1970 + d * 400 / 146097)))];
  unfold DayFromYear in *; zlia.
Qed.

Lemma DaysInYear_range y : DaysInYear y = 365 \/ DaysInYear y = 366.
Proof. unfold DaysInYear. repeat case_match; auto. Qed.

Lemma DayWithinYear_range t : 0 <= DayWithinYear t < 365 + InLeapYear t.
Proof.
  pose proof (YearFromTime_spec t) as H. rewrite DayFromYear_succ in H.
  unfold DayWithinYear, InLeapYear.
  destruct (DaysInYear_range (YearFromTime t)) as [e|e]; rewrite e in *;
    simpl; lia.
Qed.

Lemma YearFromTime_range t :
  four_digit_year t -> 0 <= YearFromTime t <= 9999.
Proof.
  intros Ht. pose proof (YearFromTime_spec t) as H.
  assert (DayFromYear 0 <= Day t < DayFromYear 10000) as Hd.
  { unfold four_digit_year, Day, msPerDay, isoMin, isoMax in *.
    change (DayFromYear 0) with (-719528).
    change (DayFromYear 10000) with 2932897. zlia. }
  split.
  - destruct (Z.le_gt_cases 0 (YearFromTime t)) as [|Hlt]; [done|].
    pose proof (DayFromYear_mono (YearFromTime t + 1) 0 ltac:(lia)). lia.
  - destruct (Z.le_gt_cases (YearFromTime t) 9999) as [|Hlt]; [done|].
    pose proof (DayFromYear_mono 10000 (YearFromTime t) ltac:(lia)). lia.
Qed.

Lemma month_date_lt t1 t2 :
  YearFromTime t1 = YearFromTime t2 -> Day t1 < Day t2 ->
  MonthFromTime t1 < MonthFromTime t2 \/
  MonthFromTime t1 = MonthFromTime t2 /\ DateFromTime t1 < DateFromTime t2.
Proof.
  intros Hy Hd.
  pose proof (DayWithinYear_range t1) as R1.
  pose proof (DayWithinYear_range t2) as R2.
  assert (DayWithinYear t1 < DayWithinYear t2) as Hw
    by (unfold DayWithinYear; rewrite Hy; lia).
  assert (InLeapYear t1 = InLeapYear t2) as Hl
    by (unfold InLeapYear; by rewrite Hy).
  assert (InLeapYear t2 = 0 \/ InLeapYear t2 = 1) as Hl2
    by (unfold InLeapYear; case_match; auto).
  unfold DateFromTime, MonthFromTime. rewrite Hl.
  generalize dependent (DayWithinYear t1).
  generalize dependent (DayWithinYear t2).
  generalize dependent (InLeapYear t2). intros l _ Hl2 d2 R2 d1 R1 Hw.
  repeat match goal with
         | |- context [?a <? ?b] => destruct (Z.ltb_spec a b)
         end;
    lia.
Qed.

Lemma time_fields_lt t1 t2 :
  Day t1 = Day t2 -> t1 < t2 ->
  (HourFromTime t1 < HourFromTime t2 \/ HourFromTime t1 = HourFromTime t2 /\
  (MinFromTime t1 < MinFromTime t2 \/ MinFromTime t1 = MinFromTime t2 /\
  (SecFromTime t1 < SecFromTime t2 \/ SecFromTime t1 = SecFromTime t2 /\
  msFromTime t1 < msFromTime t2))).
Proof.
  unfold Day, msPerDay, HourFromTime, MinFromTime, SecFromTime, msFromTime.
  intros. zlia.
Qed.

(** A later time has the later fields. *)
Lemma fields_lt_of_lt t1 t2 : t1 < t2 -> fields_lt t1 t2.
Proof.
  intros Hlt. unfold fields_lt.
  assert (Day t1 <= Day t2) as Hd by (unfold Day, msPerDay; zlia).
  destruct (Z.eq_dec (Day t1) (Day t2)) as [He|Hne].
  - right.
    assert (YearFromTime t1 = YearFromTime t2) as Hy
      by (unfold YearFromTime; by rewrite He).
    split; [done|]. right.
    assert (MonthFromTime t1 = MonthFromTime t2) as Hm
      by (unfold MonthFromTime, DayWithinYear, InLeapYear; by rewrite He, Hy).
    split; [done|]. right.
    split; [unfold DateFromTime, DayWithinYear, InLeapYear;
            by rewrite Hm, He, Hy|].
    by apply time_fields_lt.
  - assert (Day t1 < Day t2) as Hdlt by lia.
    pose proof (YearFromTime_spec t1) as S1.
    pose proof (YearFromTime_spec t2) as S2.
    destruct (Z.lt_trichotomy (YearFromTime t1) (YearFromTime t2))
      as [|[Hy|Hgt]].
    + by left.
    + right. split; [done|].
      destruct (month_date_lt t1 t2 Hy Hdlt) as [|[??]]; [by left|].
      right. split; [done|]. by left.
    + pose proof (DayFromYear_mono (YearFromTime t2 + 1) (YearFromTime t1)
                    ltac:(lia)).
      lia.
Qed.

Lemma compare_app (a1 a2 b1 b2 : string) :
  String.length a1 = String.length a2 ->
  String.compare (a1 ++ b1) (a2 ++ b2) =
    match String.compare a1 a2 with Eq => String.compare b1 b2 | c => c end.
Proof.
  revert a2.
  induction a1 as [|c1 a1 IH]; intros [|c2 a2] Hl; simpl in *; try done.
  destruct (Ascii.compare c1 c2); try done. apply IH. lia.
Qed.

Lemma length_append (a b : string) :
  String.length (a ++ b) = (String.length a + String.length b)%nat.
Proof. induction a as [|c a IH]; simpl; [done|]. by rewrite IH. Qed.

Lemma length_pad w n : String.length (pad w n) = w.
Proof.
  revert n. induction w as [|w IH]; intros n; simpl; [done|].
  rewrite length_append, IH. simpl. lia.
Qed.

Lemma compare_digit a b :
  Ascii.compare (digit a) (digit b) = (a mod 10 ?= b mod 10).
Proof.
  unfold Ascii.compare, digit.
  pose proof (Z.mod_pos_bound a 10 ltac:(lia)).
  pose proof (Z.mod_pos_bound b 10 ltac:(lia)).
  rewrite !N_ascii_embedding by lia.
  rewrite <- N2Z.inj_compare, !N2Z.inj_add, !Z2N.id by lia.
  apply Z.add_compare_mono_l.
Qed.

Lemma compare_pad w a b :
  0 <= a < 10 ^ Z.of_nat w -> 0 <= b < 10 ^ Z.of_nat w ->
  String.compare (pad w a) (pad w b) = (a ?= b).
Proof.
  revert a b. induction w as [|w IH]; intros a b Ha Hb.
  - simpl in *. assert (a = 0) by lia. assert (b = 0) by lia. by subst.
  - rewrite Nat2Z.inj_succ, Z.pow_succ_r in Ha, Hb by lia.
    simpl. rewrite compare_app by (by rewrite !length_pad).
    rewrite IH by zlia. simpl. rewrite compare_digit.
    destruct (Z.compare_spec (a / 10) (b / 10));
      destruct (Z.compare_spec (a mod 10) (b mod 10));
      destruct (Z.compare_spec a b); try done; zlia.
Qed.

Lemma compare_pad_app w a b s1 s2 :
  0 <= a < 10 ^ Z.of_nat w -> 0 <= b < 10 ^ Z.of_nat w ->
  String.compare (pad w a ++ s1) (pad w b ++ s2) =
    match a ?= b with Eq => String.compare s1 s2 | c => c end.
Proof.
  intros. rewrite compare_app by (by rewrite !length_pad).
  by rewrite compare_pad.
Qed.

Lemma compare_String c s1 s2 :
  String.compare (String c s1) (String c s2) = String.compare s1 s2.
Proof.
  simpl. unfold Ascii.compare. by rewrite N.compare_refl.
Qed.

Lemma MonthFromTime_range t : 0 <= MonthFromTime t <= 11.
Proof. unfold MonthFromTime. repeat case_match; lia. Qed.

Lemma DateFromTime_range t : 1 <= DateFromTime t <= 31.
Proof.
  pose proof (DayWithinYear_range t) as R.
  assert (InLeapYear t = 0 \/ InLeapYear t = 1) as Hl
    by (unfold InLeapYear; case_match; auto).
  unfold DateFromTime, MonthFromTime.
  generalize dependent (DayWithinYear t).
  generalize dependent (InLeapYear t). intros l Hl d R.
  repeat match goal with
         | |- context [?a <? ?b] => destruct (Z.ltb_spec a b)
         end;
    lia.
Qed.

(** The rendering as a chain of comparisons of its fields. *)
Lemma compare_iso_fields t1 t2 :
  four_digit_year t1 -> four_digit_year t2 ->
  String.compare (iso_of_time t1) (iso_of_time t2) =
    match YearFromTime t1 ?= YearFromTime t2 with
    | Eq =>
      match MonthFromTime t1 + 1 ?= MonthFromTime t2 + 1 with
      | Eq =>
        match DateFromTime t1 ?= DateFromTime t2 with
        | Eq =>
          match HourFromTime t1 ?= HourFromTime t2 with
          | Eq =>
            match MinFromTime t1 ?= MinFromTime t2 with
            | Eq =>
              match SecFromTime t1 ?= SecFromTime t2 with
              | Eq => msFromTime t1 ?= msFromTime t2
              | c => c
              end
            | c => c
            end
          | c => c
          end
        | c => c
        end
      | c => c
      end
    | c => c
    end.
Proof.
  intros R1 R2.
  pose proof (YearFromTime_range t1 R1). pose proof (YearFromTime_range t2 R2).
  pose proof (MonthFromTime_range t1). pose proof (MonthFromTime_range t2).
  pose proof (DateFromTime_range t1). pose proof (DateFromTime_range t2).
  assert (forall t, 0 <= HourFromTime t < 24) as Hh
    by (intros; unfold HourFromTime; zlia).
  assert (forall t, 0 <= MinFromTime t < 60) as Hm
    by (intros; unfold MinFromTime; zlia).
  assert (forall t, 0 <= SecFromTime t < 60) as Hs
    by (intros; unfold SecFromTime; zlia).
  assert (forall t, 0 <= msFromTime t < 1000) as Hms
    by (intros; unfold msFromTime; zlia).
  pose proof (Hh t1); pose proof (Hh t2).
  pose proof (Hm t1); pose proof (Hm t2).
  pose proof (Hs t1); pose proof (Hs t2).
  pose proof (Hms t1); pose proof (Hms t2).
  unfold iso_of_time, iso_year.
  replace ((0 <=? YearFromTime t1) && (YearFromTime t1 <=? 9999)) with true
    by (symmetry; apply andb_true_iff; lia).
  replace ((0 <=? YearFromTime t2) && (YearFromTime t2 <=? 9999)) with true
    by (symmetry; apply andb_true_iff; lia).
  repeat (rewrite compare_pad_app by (simpl; lia);
          change ("-" ++ ?s) with (String "-" s);
          change ("T" ++ ?s) with (String "T" s);
          change (":" ++ ?s) with (String ":" s);
          change ("." ++ ?s) with (String "." s);
          rewrite ?compare_String).
  change (String.compare "Z" "Z") with Eq.
  by destruct (msFromTime t1 ?= msFromTime t2).
Qed.

(** On the timestamps whose year has four digits, the order of the
    renderings is the order of the times. *)
Lemma compare_iso t1 t2 :
  four_digit_year t1 -> four_digit_year t2 ->
  String.compare (iso_of_time t1) (iso_of_time t2) = (t1 ?= t2).
Proof.
  intros R1 R2. rewrite compare_iso_fields by done.
  destruct (Z.compare_spec t1 t2) as [-> | Hlt | Hgt].
  - by rewrite !Z.compare_refl.
  - pose proof (fields_lt_of_lt t1 t2 Hlt) as F. unfold fields_lt in F.
    repeat match goal with
           | |- context [?a ?= ?b] => destruct (Z.compare_spec a b)
           end; try done; lia.
  - pose proof (fields_lt_of_lt t2 t1 Hgt) as F. unfold fields_lt in F.
    repeat match goal with
           | |- context [?a ?= ?b] => destruct (Z.compare_spec a b)
           end; try done; lia.
Qed.

Lemma string_ge_iso t1 t2 :
  four_digit_year t1 -> four_digit_year t2 ->
  string_ge (iso_of_time t1) (iso_of_time t2) = (t2 <=? t1).
Proof.
  intros R1 R2. unfold string_ge, String.leb, Z.leb.
  by rewrite compare_iso.
Qed.

Lemma iso_of_time_mono t1 t2 :
  four_digit_year t1 -> four_digit_year t2 -> t1 <= t2 ->
  string_ge (iso_of_time t2) (iso_of_time t1) = true.
Proof.
  intros R1 R2 Hle. rewrite string_ge_iso by done. by apply Z.leb_le.
Qed.

(** Membership of a string in a list of string literals. *)
Ltac in_list :=
  repeat first [apply list_elem_of_here | apply list_elem_of_further].
Ltac not_in_list :=
  clear; rewrite ?not_elem_of_cons; repeat split;
  first [discriminate | apply not_elem_of_nil].

(** A decidable fact about concrete data, by evaluation. *)
Ltac by_computation := apply (bool_decide_unpack _); vm_compute; exact I.

(** ** Rows and objects *)

Lemma to_row_lookup (o : gmap string Value) (k : string) (v : Value) :
  o !! k = Some v → is_undefined v = false →
  to_row o !! k = Some (to_column v).
Proof.
  intros Hk Hv. unfold to_row, defined_fields. rewrite lookup_fmap.
  by erewrite map_lookup_filter_Some_2.
Qed.

Lemma to_row_lookup_None (o : gmap string Value) (k : string) :
  o !! k = None → to_row o !! k = None.
Proof.
  intros Hk. unfold to_row, defined_fields. rewrite lookup_fmap.
  rewrite map_lookup_filter_None_2; [done | by left].
Qed.

Lemma returned_Ok {A B : Type} (r : Result (A * B)) (a : A) (s : B) :
  returned r = Some a → r = Ok (a, committed s r).
Proof. destruct r as [[]|]; [|done]. by intros [= ->]. Qed.

Lemma fst_pair {A B : Type} (p : A * B) (a : A) : p.1 = a → p = (a, p.2).
Proof. destruct p. simpl. by intros ->. Qed.

Lemma saved_row_lookup (o old : gmap string Value) (t : Value)
    (k : string) (v : Value) :
  k ≠ "type" → o !! k = Some v → is_undefined v = false →
  (<["type" := t]> (to_row o) ∪ old) !! k = Some (to_column v).
Proof.
  intros Hk Ho Hv. apply lookup_union_Some_l.
  rewrite lookup_insert_ne by done. by apply to_row_lookup.
Qed.

(** ** The creation of a post *)

Section CreatePost.
Context (E : Env).

(** The row [createPost_save] writes holds the stamped fields and the
    defined fields of the payload. *)
Lemma createPost_save_row st data mk qs pid now :
  ∃ row,
    posts (createPost_save E st data mk qs pid now).2 !! pid = Some row
    ∧ row !! "id" = Some (VStr pid)
    ∧ row !! "shortId" = Some (VStr pid)
    ∧ row !! "createdAt" = Some (VDate (Some now))
    ∧ row !! "score" = Some (VNum (now / 60000))
    ∧ (∀ k v, k ∉ ["id"; "shortId"; "createdAt"; "score"; "origin"; "type"] →
         data !! k = Some v → is_undefined v = false →
         row !! k = Some (to_column v)).
Proof.
  unfold createPost_save. simpl. rewrite lookup_insert_eq. eexists.
  split; [done|]. change (1000 * 60) with 60000.
  split; [|split; [|split; [|split]]].
  - by apply (saved_row_lookup _ _ _ _ (VStr pid)); [|simplify_map_eq|].
  - by apply (saved_row_lookup _ _ _ _ (VStr pid)); [|simplify_map_eq|].
  - by apply (saved_row_lookup _ _ _ _ (VDate (Some now)));
      [|simplify_map_eq|].
  - by apply (saved_row_lookup _ _ _ _ (VNum (now / 60000)));
      [|simplify_map_eq|].
  - intros k v Hk Hd Hv.
    assert (k ≠ "id" ∧ k ≠ "shortId" ∧ k ≠ "createdAt" ∧ k ≠ "score"
            ∧ k ≠ "origin" ∧ k ≠ "type") as (?&?&?&?&?&?).
    { repeat split; intros ->; apply Hk; in_list. }
    apply saved_row_lookup; [done| |done]. by simplify_map_eq.
Qed.
Lemma existingPost_true st data k row u :
  posts st !! k = Some row → has_url row u → has_url data u →
  existingPost st data = true.
Proof.
  intros Hk Hr Hd. apply bool_decide_eq_true. exists k, row. split; [done|].
  unfold url_matches, col, prop.
  destruct Hr as [-> | ->], Hd as [-> | ->]; simpl; rewrite String.eqb_refl;
    by rewrite ?orb_true_r.
Qed.

Lemma createPost_created st data sid mk qs pid now st' :
  createPost E st data sid mk qs pid now = (RetUndefined, st') →
  ∃ st1 data1,
    createPost_save E st1 data1 mk qs pid now = (RetUndefined, st')
    ∧ (∀ k, k ≠ "scoutId" → data1 !! k = data !! k).
Proof.
  unfold createPost. intros H.
  destruct (existingPost st data); [done|].
  destruct (truthy (of_ostr sid)); [|by eauto].
  destruct (submissions st !! default "" sid) as [sub|]; [|by eauto].
  destruct (strict_eq _ _); [done|].
  eexists _, _. split; [exact H|]. intros k Hk. by rewrite lookup_insert_ne.
Qed.

(** C2: when an existing post has, as its url or its canonical url, the url
    or the canonical url of the payload, [createPost] returns the no-op
    result and leaves the store as it is: no post is inserted and neither
    index is touched.  So it is for the store a create event has just
    created a post in, when the payload shares a url with that event: the
    second event creates no second post. *)
Theorem createPost_dedup st data sid mk qs pid now :
  (∃ k row u, posts st !! k = Some row ∧ has_url row u ∧ has_url data u)
  ∨ (∃ st0 data0 sid0 mk0 qs0 pid0 now0 u,
        createPost E st0 data0 sid0 mk0 qs0 pid0 now0 = (RetUndefined, st)
        ∧ has_url data0 u ∧ has_url data u) →
  createPost E st data sid mk qs pid now = (RetNull, st).
Proof.
  intros H.
  assert (existingPost st data = true) as He;
    [|unfold createPost; by rewrite He].
  destruct H as [(k & row & u & Hk & Hr & Hd)
                | (st0 & data0 & sid0 & mk0 & qs0 & pid0 & now0 & u
                   & Hc & H0 & Hd)].
  { by eapply existingPost_true. }
  apply createPost_created in Hc as (st1 & data1 & Hs & Hsame).
  destruct (createPost_save_row st1 data1 mk0 qs0 pid0 now0)
    as (row & Hrow & _ & _ & _ & _ & Hfields).
  rewrite Hs in Hrow. simpl in Hrow.
  apply (existingPost_true _ _ pid0 row u); [done| |done].
  destruct H0 as [H0 | H0]; [left | right];
    rewrite <- Hsame in H0 by done;
    (apply (Hfields _ (VStr u)); [not_in_list | done | done]).
Qed.

(** C9: the post [createPost] creates has, as its score, the creation time
    in whole minutes since the epoch, and the generated short id as its id
    and as its short id. *)
Theorem createPost_score_and_ids st data sid mk qs pid now st' :
  createPost E st data sid mk qs pid now = (RetUndefined, st') →
  field st' pid "createdAt" = Some (VDate (Some now))
  ∧ field st' pid "score" = Some (VNum (now / 60000))
  ∧ field st' pid "id" = Some (VStr pid)
  ∧ field st' pid "shortId" = Some (VStr pid).
Proof.
  intros Hc. apply createPost_created in Hc as (st1 & data1 & Hs & _).
  destruct (createPost_save_row st1 data1 mk qs pid now)
    as (row & Hrow & Hid & Hshort & Hat & Hscore & _).
  rewrite Hs in Hrow. simpl in Hrow. unfold field. by rewrite Hrow.
Qed.

(** C4, as the code has it: when no existing post shares a url with the
    payload, a create event whose submission exists and is owned by the
    resolved author sets the submission to Rejected with the scout-is-author
    reason, returns the no-op result and touches nothing else: no post is
    created and neither index changes. *)
Theorem createPost_self_submission st data sid submission mk qs pid now :
  existingPost st data = false →
  sid ≠ "" →
  submissions st !! sid = Some submission →
  prop data "authorId" = VStr (Submission.userId submission) →
  createPost E st data (Some sid) mk qs pid now =
    (RetNull,
     {| posts := posts st;
        submissions :=
          <[sid := {| Submission.userId := Submission.userId submission;
                      Submission.status := Rejected;
                      Submission.reason :=
                        Some (SubmissionFailErrorKeys_ScoutIsAuthor E) |}]>
            (submissions st);
        sources := sources st;
        postKeywords := postKeywords st;
        postQuestions := postQuestions st |}).
Proof.
  intros He Hsid Hs Ha. unfold createPost. rewrite He. simpl.
  destruct (String.eqb_spec sid ""); [done|]. simpl.
  rewrite Hs, Ha. simpl. by rewrite String.eqb_refl.
Qed.
End CreatePost.

(** ** The update of a post *)

Section UpdatePost.
Context (E : Env).

Lemma column_row st id k row :
  posts st !! id = Some row → column st id k = col row k.
Proof. intros H. unfold column, field. by rewrite H. Qed.

Lemma contentTypeFromPostType_Some ct pt :
  contentTypeFromPostType ct = Some pt → pt = ct.
Proof.
  unfold contentTypeFromPostType.
  repeat match goal with
         | |- context [String.eqb ct ?s] =>
             destruct (String.eqb_spec ct s) as [-> | _]; [by intros [= <-]|]
         end.
  done.
Qed.

Lemma findOneBy_Some st pt id db :
  findOneBy st pt id = Some db →
  ∃ row, posts st !! id = Some row ∧ col row "type" = VStr pt
         ∧ db = <["id" := VStr id]> row.
Proof.
  unfold findOneBy. destruct (posts st !! id) as [row|]; [|done].
  destruct (strict_eq (col row "type") (VStr pt)) eqn:Ht; [|done].
  intros [= <-]. exists row. repeat split.
  destruct (col row "type"); try done. simpl in Ht.
  by apply String.eqb_eq in Ht as ->.
Qed.

(** An update that is applied found the post and merged into it. *)
Lemma updatePost_applied st data id mk qs ct st' :
  updatePost E st data id mk qs ct = Ok (RetUndefined, st') →
  ∃ data' row,
    (∀ k, k ≠ "sourceId" → data' !! k = data !! k)
    ∧ posts st !! id = Some row
    ∧ col row "type" = VStr (default PostType_Article ct)
    ∧ st' = updatePost_merge st data' id mk qs (default PostType_Article ct)
              (<["id" := VStr id]> row).
Proof.
  unfold updatePost. intros H.
  destruct (contentTypeFromPostType _) as [pt|] eqn:Hpt; [|done].
  apply contentTypeFromPostType_Some in Hpt as ->.
  destruct (findOneBy _ _ _) as [db|] eqn:Hdb; [|done].
  apply findOneBy_Some in Hdb as (row & Hrow & Hty & ->).
  destruct (toISOString _); [|done]. simpl in H.
  destruct (toISOString _); [|done]. simpl in H.
  destruct (string_ge _ _); [done|]. injection H as <-.
  exists (if strict_eq (prop data "origin") (VStr (PostOrigin_Squad E))
          then <["sourceId" := VStr (UNKNOWN_SOURCE E)]> data else data), row.
  split; [|done].
  intros k Hk. destruct (strict_eq _ _); [|done]. by rewrite lookup_insert_ne.
Qed.



Lemma posts_reindex (b1 b2 : bool) st l1 l2 qs id e :
  posts
    (addQuestions
       (if b1
        then addKeywords (if b2 then removeKeywords st l1 id else st) l2 id
        else st) qs id e)
  = posts st.
Proof. by destruct b1, b2. Qed.

Lemma filter_allowed_lookup_None (data : gmap string Value) fields k :
  k ∉ allowedFields fields →
  filter (λ kv : string * Value, kv.1 ∈ allowedFields fields) data !! k = None.
Proof.
  intros Hk. apply map_lookup_filter_None_2. right. by intros x _.
Qed.

(** C3: an applied update of the freeform type changes no column of the
    post outside of the allowlist of the type and the always-kept fields:
    whatever else the payload carries is dropped before it is persisted. *)
Theorem updatePost_freeform_isolation st data id mk qs st' :
  updatePost E st data id mk qs (Some PostType_Freeform)
    = Ok (RetUndefined, st') →
  ∀ k,
    k ∉ ["id"; "visible"; "visibleAt"; "flags"; "yggdrasilId";
         "contentCuration"; "description"; "metadataChangedAt"; "readTime";
         "summary"; "tagsStr"] →
    field st' id k = field st id k.
Proof.
  intros Hu k Hk.
  apply updatePost_applied in Hu as (data' & row & _ & Hrow & Hty & ->).
  assert (k ≠ "flags") as Hflags by (intros ->; apply Hk; in_list).
  change (default PostType_Article (Some PostType_Freeform))
    with PostType_Freeform in *.
  unfold field, updatePost_merge. rewrite posts_reindex, Hrow.
  replace (allowedFieldsMapping !! PostType_Freeform)
    with (Some ["contentCuration"; "description"; "metadataChangedAt";
                "readTime"; "summary"; "tagsStr"]) by done.
  change (default ∅ (Some row)) with row.
  set (data_f := filter _ _).
  set (row' := <["flags" := _]> (update_row data_f row)).
  assert (row' !! k = row !! k) as Hk'.
  { unfold row', update_row. rewrite lookup_insert_ne by done.
    rewrite lookup_union_r; [done|].
    apply to_row_lookup_None. by apply filter_allowed_lookup_None. }
  assert (col row' "type" = VStr PostType_Freeform) as Hty'.
  { unfold col, row', update_row. rewrite lookup_insert_ne by done.
    rewrite lookup_union_r; [done|].
    apply to_row_lookup_None, filter_allowed_lookup_None.
    unfold allowedFields. simpl. not_in_list. }
  destruct (truthy _); simpl.
  - unfold update_sharePosts. rewrite lookup_fmap, lookup_insert_eq. simpl.
    by rewrite Hty'.
  - by rewrite lookup_insert_eq.
Qed.



(** An update of a post that is found under its type, with a stored
    [metadataChangedAt] before the one of the payload, both with a year of
    four digits, is applied. *)
Lemma updatePost_fresh_applied st data id mk qs ct pt t_stored t_incoming :
  contentTypeFromPostType (default PostType_Article ct) = Some pt →
  field st id "type" = Some (VStr pt) →
  field st id "metadataChangedAt" = Some (VDate (Some t_stored)) →
  data !! "metadataChangedAt" = Some (VDate (Some t_incoming)) →
  four_digit_year t_stored → four_digit_year t_incoming →
  t_stored < t_incoming →
  returned (updatePost E st data id mk qs ct) = Some RetUndefined.
Proof.
  intros Hpt Hty Hs Hi R1 R2 Hlt. unfold updatePost. rewrite Hpt.
  unfold findOneBy. unfold field in Hty, Hs.
  destruct (posts st !! id) as [row|]; [simpl in Hty, Hs|done].
  unfold col at 1. rewrite Hty. simpl. rewrite String.eqb_refl.
  assert (col (<["id" := VStr id]> row) "metadataChangedAt"
          = VDate (Some t_stored))
    as -> by (unfold col; by rewrite lookup_insert_ne, Hs).
  match goal with
  | |- context [prop ?d "metadataChangedAt"] =>
      assert (prop d "metadataChangedAt" = VDate (Some t_incoming)) as ->
        by (destruct (strict_eq _ _); unfold prop;
            by rewrite ?lookup_insert_ne, Hi)
  end.
  simpl. rewrite string_ge_iso by done.
  by destruct (Z.leb_spec t_incoming t_stored); [lia|].
Qed.

(** C1, as the code has it: an update of a post that does not exist, or of
    a post whose stored [metadataChangedAt] is at or after the one of the
    payload, both with a year of four digits, returns the no-op result and
    leaves the store as it is: no field of a post, no keyword and no
    question changes. *)
Theorem updatePost_stale_noop st data id mk qs ct :
  is_Some (contentTypeFromPostType (default PostType_Article ct)) →
  posts st !! id = None
  ∨ (∃ t_stored t_incoming,
        field st id "metadataChangedAt" = Some (VDate (Some t_stored))
        ∧ data !! "metadataChangedAt" = Some (VDate (Some t_incoming))
        ∧ four_digit_year t_stored ∧ four_digit_year t_incoming
        ∧ t_incoming <= t_stored) →
  updatePost E st data id mk qs ct = Ok (RetNull, st).
Proof.
  intros [pt Hpt] H. unfold updatePost. rewrite Hpt.
  unfold findOneBy.
  destruct H as [-> | (t1 & t2 & Hs & Hi & R1 & R2 & Hle)]; [done|].
  unfold field in Hs.
  destruct (posts st !! id) as [row|]; [simpl in Hs|done].
  destruct (strict_eq (col row "type") (VStr pt)); [|done].
  assert (col (<["id" := VStr id]> row) "metadataChangedAt" = VDate (Some t1))
    as -> by (unfold col; by rewrite lookup_insert_ne, Hs).
  match goal with
  | |- context [prop ?d "metadataChangedAt"] =>
      assert (prop d "metadataChangedAt" = VDate (Some t2)) as ->
        by (destruct (strict_eq _ _); unfold prop;
            by rewrite ?lookup_insert_ne, Hi)
  end.
  simpl. by rewrite iso_of_time_mono.
Qed.
End UpdatePost.

(** ** The handler *)

Section Handler.
Context (E : Env).

(** A submission that is not Started is not touched by [handleRejection]. *)
Lemma handleRejection_settled st data sid submission :
  Data.submission_id data = Some sid →
  submissions st !! sid = Some submission →
  Submission.status submission ≠ Started →
  handleRejection E st data = st.
Proof.
  intros Hsid Hs Hst. unfold handleRejection. rewrite Hsid. simpl.
  destruct (negb _); [done|]. rewrite Hs. by destruct (Submission.status _).
Qed.

(** A message with a rejection reason is handled by [handleRejection]
    alone, which touches no post and no index.  Without a submission id,
    or when the submission does not exist, the store stays as it is; a
    submission that is Started becomes Rejected, with the reason of the
    message when [in] finds it in the table of the error messages and with
    the generic error otherwise; a submission in another state stays as it
    is. *)
Theorem rejection_handled amb st data reason :
  Data.reject_reason data = Some reason →
  reason ≠ "" →
  ∃ st',
    transaction E amb st data = Ok (HandledRejection, st')
    ∧ posts st' = posts st
    ∧ postKeywords st' = postKeywords st
    ∧ postQuestions st' = postQuestions st
    ∧ (Data.submission_id data = None ∨ Data.submission_id data = Some ""
       ∨ (∃ sid, Data.submission_id data = Some sid
                 ∧ submissions st !! sid = None) →
       st' = st)
    ∧ (∀ sid submission,
         Data.submission_id data = Some sid → sid ≠ "" →
         submissions st !! sid = Some submission →
         match Submission.status submission with
         | Started =>
             submissions st' =
               <[sid := {| Submission.userId := Submission.userId submission;
                           Submission.status := Rejected;
                           Submission.reason :=
                             Some (if in_SubmissionFailErrorMessage E reason
                                   then reason
                                   else SubmissionFailErrorKeys_GenericError E)
                        |}]> (submissions st)
         | _ => st' = st
         end).
Proof.
  intros Hr Hne. exists (handleRejection E st data).
  assert (truthy (of_ostr (Data.reject_reason data)) = true) as Ht.
  { rewrite Hr. simpl. by destruct (String.eqb_spec reason ""). }
  unfold transaction. rewrite Ht. split; [done|].
  unfold handleRejection. rewrite Hr.
  destruct (Data.submission_id data) as [sid|] eqn:Hsid; simpl.
  2:{ do 4 (split; [done|]). by intros sid sub [=]. }
  destruct (String.eqb_spec sid "") as [-> | Hsne]; simpl.
  { do 4 (split; [done|]). by intros sid sub [= <-]. }
  destruct (submissions st !! sid) as [sub|] eqn:Hs.
  2:{ do 4 (split; [done|]). intros sid' sub' [= <-] _ Hs'. congruence. }
  destruct (Submission.status sub) eqn:Hst; simpl.
  - do 3 (split; [done|]).
    split; [by intros [? | [[=] | (sid' & [= <-] & Hn)]]; congruence|].
    intros sid' sub' [= <-] _ Hs'. rewrite Hs in Hs'. injection Hs' as <-.
    rewrite Hst. by destruct (in_SubmissionFailErrorMessage E reason).
  - do 3 (split; [done|]).
    split; [by intros [? | [[=] | (sid' & [= <-] & Hn)]]; congruence|].
    intros sid' sub' [= <-] _ Hs'. rewrite Hs in Hs'. injection Hs' as <-.
    by rewrite Hst.
  - do 3 (split; [done|]).
    split; [by intros [? | [[=] | (sid' & [= <-] & Hn)]]; congruence|].
    intros sid' sub' [= <-] _ Hs'. rewrite Hs in Hs'. injection Hs' as <-.
    by rewrite Hst.
Qed.

(** The handler on a create event and on an update event. *)
Lemma handler_create amb st data :
  truthy (of_ostr (Data.reject_reason data)) = false →
  match extra_str data Extra.creator_twitter with
  | VStr s => bool_decide (s ∈ bannedAuthors E)
  | _ => false
  end = false →
  truthy (of_ostr (Data.post_id data)) = false →
  handler E amb st data =
    (createPost E st (fixedData (fixData E amb st data))
       (Data.submission_id data) (fd_mergedKeywords (fixData E amb st data))
       (fd_questions (fixData E amb st data)) (generatedShortId amb)
       (nowCreatedAt amb)).2.
Proof.
  intros Hr Hb Hp. unfold handler, transaction. rewrite Hr, Hb, Hp. simpl.
  by destruct (createPost _ _ _ _ _ _ _ _).
Qed.

Lemma handler_update amb st data id :
  truthy (of_ostr (Data.reject_reason data)) = false →
  match extra_str data Extra.creator_twitter with
  | VStr s => bool_decide (s ∈ bannedAuthors E)
  | _ => false
  end = false →
  Data.post_id data = Some id → id ≠ "" →
  handler E amb st data =
    committed st
      (updatePost E st (fixedData (fixData E amb st data)) id
         (fd_mergedKeywords (fixData E amb st data))
         (fd_questions (fixData E amb st data))
         (fd_content_type (fixData E amb st data))).
Proof.
  intros Hr Hb Hp Hne. unfold handler, transaction. rewrite Hr, Hb, Hp. simpl.
  destruct (String.eqb_spec id ""); [done|]. simpl.
  by destruct (updatePost _ _ _ _ _ _ _) as [[]|].
Qed.

Lemma transaction_committed amb st data o :
  returned (transaction E amb st data) = Some o →
  transaction E amb st data = Ok (o, handler E amb st data).
Proof.
  unfold handler. destruct (transaction _ _ _ _) as [[]|]; [|done].
  by intros [= ->].
Qed.

Lemma fixData_visible amb st data :
  fixedData (fixData E amb st data) !! "visible"
    = Some (VBool (has_length (of_ostr (Data.title data))))
  ∧ fixedData (fixData E amb st data) !! "visibleAt"
    = Some (if has_length (of_ostr (Data.title data))
            then VDate (Some (nowVisibleAt amb)) else VNull).
Proof.
  unfold fixData. destruct (mergeKeywords E _) as [allowed merged].
  cbn [fixedData]. rewrite !list_to_map_cons.
  split; by simplify_map_eq.
Qed.

(** C6: the post a create event creates is visible, with the clock as its
    [visibleAt], when the title of the event is a string that is not empty;
    it is not visible and its [visibleAt] is null when the title is empty
    or missing. *)
Theorem created_post_visibility amb st data st' :
  transaction E amb st data = Ok (Created RetUndefined, st') →
  (∀ title, Data.title data = Some title → title ≠ "" →
     field st' (generatedShortId amb) "visible" = Some (VBool true)
     ∧ field st' (generatedShortId amb) "visibleAt"
       = Some (VDate (Some (nowVisibleAt amb))))
  ∧ (Data.title data = None ∨ Data.title data = Some "" →
     field st' (generatedShortId amb) "visible" = Some (VBool false)
     ∧ field st' (generatedShortId amb) "visibleAt" = Some VNull).
Proof.
  unfold transaction. intros H.
  destruct (truthy (of_ostr (Data.reject_reason data))); [done|].
  destruct (match extra_str data Extra.creator_twitter with
            | VStr s => bool_decide (s ∈ bannedAuthors E)
            | _ => false
            end); [done|].
  destruct (negb (truthy (of_ostr (Data.post_id data)))).
  2:{ by destruct (updatePost _ _ _ _ _ _ _). }
  destruct (createPost _ _ _ _ _ _ _ _) as [r st1] eqn:Hc.
  injection H as -> ->.
  apply createPost_created in Hc as (st0 & data1 & Hs & Hsame).
  destruct (createPost_save_row E st0 data1
              (fd_mergedKeywords (fixData E amb st data))
              (fd_questions (fixData E amb st data)) (generatedShortId amb)
              (nowCreatedAt amb))
    as (row & Hrow & _ & _ & _ & _ & Hfields).
  rewrite Hs in Hrow. simpl in Hrow.
  destruct (fixData_visible amb st data) as [Hv Hva].
  rewrite <- Hsame in Hv, Hva by done.
  apply Hfields in Hv; [|not_in_list|done].
  apply Hfields in Hva; [|not_in_list|by destruct (has_length _)].
  unfold field. rewrite Hrow. simpl. rewrite Hv, Hva.
  split.
  - intros title -> Hne. simpl. by destruct (String.eqb_spec title "").
  - by intros [-> | ->].
Qed.
End Handler.

(** ** The worker at work *)

(** C1, refuted as stated: the post [p1] is stored with a
    [metadataChangedAt] in the year 10000, which renders to an expanded
    year, [+010000-...]; an update dated 2024 is older, but its rendering,
    [2024-...], is the greater string, and the update is applied instead of
    being dropped: the title changes. *)
Lemma stale_update_after_year_9999_applied :
  field store_year_10000 "p1" "metadataChangedAt"
    = Some (VDate (Some 253402300800000))
  ∧ fixedData (fixData test_env test_clock2 store_year_10000 event_2024)
      !! "metadataChangedAt" = Some (VDate (Some 1704067200000))
  ∧ 1704067200000 <= 253402300800000
  ∧ updatePost test_env store_year_10000
      (fixedData (fixData test_env test_clock2 store_year_10000 event_2024))
      "p1" ["a"; "b"] [] None
    ≠ Ok (RetNull, store_year_10000)
  ∧ field store_year_10000 "p1" "title" = Some (VStr "Hello")
  ∧ field (handler test_env test_clock2 store_year_10000 event_2024)
      "p1" "title" = Some (VStr "Changed").
Proof.
  split; [vm_compute; reflexivity|]. split; [vm_compute; reflexivity|].
  split; [lia|]. split; [|split; vm_compute; reflexivity].
  assert (returned
            (updatePost test_env store_year_10000
               (fixedData
                  (fixData test_env test_clock2 store_year_10000 event_2024))
               "p1" ["a"; "b"] [] None) = Some RetUndefined) as Hr
    by (vm_compute; reflexivity).
  intros H. rewrite H in Hr. discriminate Hr.
Qed.

Lemma updatePost_stale_noop_witness :
  updatePost test_env store_hello
    (fixedData (fixData test_env test_clock2 store_hello event_stale))
    "p1" ["b"; "c"] [] None
  = Ok (RetNull, store_hello).
Proof.
  apply updatePost_stale_noop.
  - by eexists.
  - right. exists 1700000000000, 1672531200000.
    split; [vm_compute; reflexivity|].
    split; [vm_compute; reflexivity|].
    unfold four_digit_year, isoMin, isoMax. lia.
Defined.

Lemma createPost_dedup_witness :
  handler test_env test_clock2
    (handler test_env test_clock empty_store event_hello) event_canonical
  = handler test_env test_clock empty_store event_hello.
Proof.
  rewrite (handler_create test_env test_clock2) by (vm_compute; reflexivity).
  rewrite (handler_create test_env test_clock) by (vm_compute; reflexivity).
  erewrite createPost_dedup; [reflexivity|].
  right. do 7 eexists. exists "http://x.com".
  split; [apply fst_pair; vm_compute; reflexivity|].
  split; [left | right]; vm_compute; reflexivity.
Defined.

Lemma updatePost_freeform_isolation_witness :
  field (handler test_env test_clock2 store_freeform event_freeform)
    "f1" "title" = Some (VStr "My post")
  ∧ field (handler test_env test_clock2 store_freeform event_freeform)
      "f1" "image" = None
  ∧ field (handler test_env test_clock2 store_freeform event_freeform)
      "f1" "summary" = Some (VStr "In short").
Proof.
  split; [|split]; [| |vm_compute; reflexivity];
    rewrite (handler_update test_env test_clock2 store_freeform
               event_freeform "f1") by (vm_compute; done);
    change (fd_content_type _) with (Some PostType_Freeform).
  - erewrite updatePost_freeform_isolation;
      [| apply returned_Ok; vm_compute; reflexivity | not_in_list].
    vm_compute; reflexivity.
  - erewrite updatePost_freeform_isolation;
      [| apply returned_Ok; vm_compute; reflexivity | not_in_list].
    vm_compute; reflexivity.
Defined.

(** C4, refuted as stated: the submission [s1] exists and is owned by the
    resolved author, but a post with the url of the event exists already:
    the event is dropped by the duplicate check and the submission stays
    Started. *)
Lemma self_submission_of_known_url_not_rejected :
  submissions store_hello_submission !! "s1"
    = Some {| Submission.userId := "u1"; Submission.status := Started;
              Submission.reason := None |}
  ∧ Data.submission_id event_own_article = Some "s1"
  ∧ fixedData
      (fixData test_env test_clock2 store_hello_submission event_own_article)
      !! "authorId" = Some (VStr "u1")
  ∧ returned
      (transaction test_env test_clock2 store_hello_submission
         event_own_article) = Some (Created RetNull)
  ∧ submissions
      (handler test_env test_clock2 store_hello_submission event_own_article)
      !! "s1"
    = Some {| Submission.userId := "u1"; Submission.status := Started;
              Submission.reason := None |}.
Proof. repeat split; vm_compute; reflexivity. Qed.

Lemma createPost_self_submission_witness :
  createPost test_env store_submission
    (fixedData (fixData test_env test_clock store_submission event_own_article))
    (Some "s1") [] [] "p1" 1700000000002
  = (RetNull,
     {| posts := posts store_submission;
        submissions :=
          <["s1" := {| Submission.userId := "u1";
                       Submission.status := Rejected;
                       Submission.reason := Some "SCOUT_IS_AUTHOR" |}]>
            (submissions store_submission);
        sources := sources store_submission;
        postKeywords := postKeywords store_submission;
        postQuestions := postQuestions store_submission |}).
Proof.
  apply (createPost_self_submission test_env store_submission _ "s1"
           {| Submission.userId := "u1"; Submission.status := Started;
              Submission.reason := None |}).
  - vm_compute; reflexivity.
  - done.
  - vm_compute; reflexivity.
  - vm_compute; reflexivity.
Defined.

(** C5, the code at work on a settled submission: the submission [s1] has
    been Rejected with the generic error; a create event that carries its id
    makes it Accepted, and a create event of its owner overwrites the reason
    of the rejection. *)
Lemma createPost_resettles_submission :
  submissions store_rejected !! "s1"
    = Some {| Submission.userId := "u1"; Submission.status := Rejected;
              Submission.reason := Some "GENERIC_ERROR" |}
  ∧ submissions (handler test_env test_clock store_rejected event_submitted)
      !! "s1"
    = Some {| Submission.userId := "u1"; Submission.status := Accepted;
              Submission.reason := Some "GENERIC_ERROR" |}
  ∧ submissions (handler test_env test_clock store_rejected event_own_article)
      !! "s1"
    = Some {| Submission.userId := "u1"; Submission.status := Rejected;
              Submission.reason := Some "SCOUT_IS_AUTHOR" |}.
Proof. repeat split; vm_compute; reflexivity. Qed.

(** C8, the code at work on a reason that is no key of the table of the
    error messages: the operator [in] finds the name [toString], which the
    table inherits as every object does, so the rejection stores [toString]
    as the reason of the submission [s1], whatever the keys of the table
    are, where the generic error is to be stored. *)
Lemma rejection_stores_inherited_name :
  ("toString" ∉ SubmissionFailErrorMessage_keys test_env)
  ∧ ∀ E amb,
      submissions (handler E amb store_submission event_toString) !! "s1"
      = Some {| Submission.userId := "u1"; Submission.status := Rejected;
                Submission.reason := Some "toString" |}.
Proof.
  split; [by_computation|]. intros E amb.
  unfold handler, transaction, handleRejection.
  change (Data.reject_reason event_toString) with (Some "toString").
  change (Data.submission_id event_toString) with (Some "s1").
  change (truthy (of_ostr (Some "toString"))) with true.
  change (negb (truthy (of_ostr (Some "s1")))) with false.
  cbv iota. cbn [committed].
  change (default "" (Some "s1")) with "s1".
  change (submissions store_submission !! "s1")
    with (Some {| Submission.userId := "u1"; Submission.status := Started;
                  Submission.reason := None |}).
  cbv iota. cbn [Submission.status Submission.userId submissions
                 set_submissions].
  rewrite lookup_insert_eq.
  change (default "undefined" (Some "toString")) with "toString".
  unfold in_SubmissionFailErrorMessage.
  change (bool_decide ("toString" ∈ Object_prototype)) with true.
  by rewrite orb_true_r.
Qed.

Lemma created_post_visibility_witness :
  field (handler test_env test_clock empty_store event_hello) "p1" "visible"
    = Some (VBool true)
  ∧ field (handler test_env test_clock empty_store event_hello) "p1"
      "visibleAt" = Some (VDate (Some 1700000000001)).
Proof.
  apply (proj1 (created_post_visibility test_env test_clock empty_store
                  event_hello _
                  (transaction_committed test_env test_clock empty_store
                     event_hello (Created RetUndefined)
                     ltac:(vm_compute; reflexivity)))
           "Hello"); done.
Defined.


Lemma rejection_handled_witness :
  submissions (handler test_env test_clock store_submission event_failed)
    !! "s1"
  = Some {| Submission.userId := "u1"; Submission.status := Rejected;
            Submission.reason := Some "GENERIC_ERROR" |}
  ∧ posts (handler test_env test_clock store_submission event_failed)
    = posts store_submission.
Proof.
  destruct (rejection_handled test_env test_clock store_submission
              event_failed "FAILED" eq_refl ltac:(done))
    as (st' & Ht & Hposts & _ & _ & _ & Hsub).
  specialize (Hsub "s1" _ eq_refl ltac:(done) ltac:(vm_compute; reflexivity)).
  unfold handler. rewrite Ht. cbn [committed]. split; [|done].
  simpl in Hsub. rewrite Hsub. by rewrite lookup_insert_eq.
Defined.

Lemma createPost_score_and_ids_witness :
  field (handler test_env test_clock empty_store event_hello) "p1" "score"
    = Some (VNum 28333333)
  ∧ field (handler test_env test_clock empty_store event_hello) "p1" "id"
    = Some (VStr "p1")
  ∧ field (handler test_env test_clock empty_store event_hello) "p1" "shortId"
    = Some (VStr "p1").
Proof.
  rewrite (handler_create test_env test_clock) by (vm_compute; reflexivity).
  match goal with
  | |- context [field ?p.2] =>
      assert (p = (RetUndefined, p.2)) as Hcreated
        by (apply fst_pair; vm_compute; reflexivity)
  end.
  destruct (createPost_score_and_ids _ _ _ _ _ _ _ _ _ Hcreated)
    as (_ & Hscore & Hid & Hshort).
  split; [exact Hscore|]. by split.
Defined.


(** * Further properties of the worker *)

(** ** What the handler keeps *)

Section Keeps.
Context (E : Env).

Lemma handleRejection_keeps st data :
  posts (handleRejection E st data) = posts st
  ∧ sources (handleRejection E st data) = sources st
  ∧ postKeywords (handleRejection E st data) = postKeywords st
  ∧ postQuestions (handleRejection E st data) = postQuestions st
  ∧ ∀ sid, Submission.userId <$> submissions (handleRejection E st data) !! sid
           = Submission.userId <$> submissions st !! sid.
Proof.
  unfold handleRejection. destruct (negb _); [done|].
  destruct (submissions st !! default "" (Data.submission_id data))
    as [sub|] eqn:Hs; [|done].
  destruct (Submission.status sub); try done.
  do 4 (split; [done|]). intros sid. cbn [submissions set_submissions].
  destruct (decide (default "" (Data.submission_id data) = sid)) as [<- | Hne].
  - by rewrite lookup_insert_eq, Hs.
  - by rewrite lookup_insert_ne.
Qed.

Lemma createPost_save_keeps st data mk qs pid now :
  sources (createPost_save E st data mk qs pid now).2 = sources st
  ∧ submissions (createPost_save E st data mk qs pid now).2 = submissions st
  ∧ ∃ row, posts (createPost_save E st data mk qs pid now).2
           = <[pid := row]> (posts st).
Proof. unfold createPost_save. simpl. eauto. Qed.

Lemma createPost_keeps st data sid mk qs pid now :
  sources (createPost E st data sid mk qs pid now).2 = sources st
  ∧ (∀ s, Submission.userId
            <$> submissions (createPost E st data sid mk qs pid now).2 !! s
          = Submission.userId <$> submissions st !! s)
  ∧ (posts (createPost E st data sid mk qs pid now).2 = posts st
     ∨ ∃ row, posts (createPost E st data sid mk qs pid now).2
              = <[pid := row]> (posts st)).
Proof.
  unfold createPost. destruct (existingPost st data); [by eauto|].
  destruct (truthy (of_ostr sid)).
  2:{ destruct (createPost_save_keeps st data mk qs pid now) as (-> & -> & ?).
      by eauto. }
  destruct (submissions st !! default "" sid) as [sub|] eqn:Hs.
  2:{ destruct (createPost_save_keeps st data mk qs pid now) as (-> & -> & ?).
      by eauto. }
  assert (∀ x r s,
            Submission.userId
              <$> <[default "" sid :=
                    {| Submission.userId := Submission.userId sub;
                       Submission.status := x; Submission.reason := r |}]>
                    (submissions st) !! s
            = Submission.userId <$> submissions st !! s) as Hsame.
  { intros x r s. destruct (decide (default "" sid = s)) as [<- | Hne].
    - by rewrite lookup_insert_eq, Hs.
    - by rewrite lookup_insert_ne. }
  destruct (strict_eq _ _).
  - split; [done|]. split; [|by left]. intros s. apply Hsame.
  - match goal with
    | |- context [createPost_save E ?s ?d mk qs pid now] =>
        destruct (createPost_save_keeps s d mk qs pid now) as (-> & -> & ?)
    end.
    split; [done|]. split; [|by right]. intros s. apply Hsame.
Qed.

Lemma updatePost_merge_keeps st data id mk qs ct db row :
  posts st !! id = Some row →
  sources (updatePost_merge st data id mk qs ct db) = sources st
  ∧ submissions (updatePost_merge st data id mk qs ct db) = submissions st
  ∧ dom (posts (updatePost_merge st data id mk qs ct db)) = dom (posts st).
Proof.
  intros Hrow. unfold updatePost_merge.
  split; [|split].
  - match goal with
    | |- sources (addQuestions (if ?b1 then addKeywords (if ?b2 then _ else ?s) _ _ else _) _ _ _) = _ =>
        destruct b1, b2; cbn [sources addQuestions addKeywords removeKeywords
                              set_postKeywords set_postQuestions];
        by destruct (truthy _)
    end.
  - match goal with
    | |- submissions (addQuestions (if ?b1 then addKeywords (if ?b2 then _ else ?s) _ _ else _) _ _ _) = _ =>
        destruct b1, b2; cbn [submissions addQuestions addKeywords
                              removeKeywords set_postKeywords
                              set_postQuestions];
        by destruct (truthy _)
    end.
  - rewrite posts_reindex.
    assert (∀ x, dom (<[id := x]> (posts st)) = dom (posts st)) as Hdom.
    { intros x. rewrite dom_insert_L.
      apply subseteq_union_1_L, singleton_subseteq_l, elem_of_dom. eauto. }
    destruct (truthy _); cbn [posts set_posts]; [|apply Hdom].
    unfold update_sharePosts. by rewrite dom_fmap_L.
Qed.

Lemma updatePost_keeps st data id mk qs ct :
  sources (committed st (updatePost E st data id mk qs ct)) = sources st
  ∧ submissions (committed st (updatePost E st data id mk qs ct))
    = submissions st
  ∧ dom (posts (committed st (updatePost E st data id mk qs ct)))
    = dom (posts st).
Proof.
  destruct (updatePost E st data id mk qs ct) as [[[] st']|] eqn:Hu;
    cbn [committed]; [| |done].
  - unfold updatePost in Hu.
    destruct (contentTypeFromPostType _); [|done].
    destruct (findOneBy _ _ _); [|by injection Hu as <-].
    destruct (toISOString _); [|done]. simpl in Hu.
    destruct (toISOString _); [|done]. simpl in Hu.
    destruct (string_ge _ _); [by injection Hu as <-|done].
  - apply updatePost_applied in Hu as (data' & row & _ & Hrow & _ & ->).
    by apply updatePost_merge_keeps with row.
Qed.

(** X1: whatever the message, the handler leaves the sources as they are,
    and neither adds nor removes a submission nor changes the user a
    submission belongs to. *)
Theorem handler_keeps_sources_and_submitters amb st data :
  sources (handler E amb st data) = sources st
  ∧ ∀ sid,
      Submission.userId <$> submissions (handler E amb st data) !! sid
      = Submission.userId <$> submissions st !! sid.
Proof.
  unfold handler, transaction.
  destruct (truthy (of_ostr (Data.reject_reason data))).
  { cbn [committed].
    destruct (handleRejection_keeps st data) as (_ & ? & _ & _ & ?). done. }
  destruct (match extra_str data Extra.creator_twitter with
            | VStr s => bool_decide (s ∈ bannedAuthors E)
            | _ => false
            end); [done|].
  destruct (negb (truthy (of_ostr (Data.post_id data)))).
  - match goal with
    | |- context [createPost E st ?d ?s ?m ?q ?p ?n] =>
        destruct (createPost_keeps st d s m q p n) as (Hso & Hsu & _);
        destruct (createPost E st d s m q p n) as [r st']
    end.
    by cbn [committed].
  - match goal with
    | |- context [updatePost E st ?d ?i ?m ?q ?c] =>
        destruct (updatePost_keeps st d i m q c) as (Hso & Hsu & _);
        destruct (updatePost E st d i m q c) as [[r st']|]
    end; cbn [bind committed] in *; [|done].
    simpl. by rewrite Hsu.
Qed.

(** X2: the handler deletes no post, and adds at most the one post under
    the generated short id; a message with a post id adds none. *)
Theorem handler_never_deletes_posts amb st data :
  dom (posts st) ⊆ dom (posts (handler E amb st data))
  ∧ dom (posts (handler E amb st data))
    ⊆ dom (posts st) ∪ {[generatedShortId amb]}
  ∧ (truthy (of_ostr (Data.post_id data)) = true →
     dom (posts (handler E amb st data)) = dom (posts st)).
Proof.
  unfold handler, transaction.
  destruct (truthy (of_ostr (Data.reject_reason data))).
  { cbn [committed].
    destruct (handleRejection_keeps st data) as (-> & _).
    split; [done|]. split; [apply union_subseteq_l|done]. }
  destruct (match extra_str data Extra.creator_twitter with
            | VStr s => bool_decide (s ∈ bannedAuthors E)
            | _ => false
            end).
  { cbn [committed]. split; [done|]. split; [apply union_subseteq_l|done]. }
  destruct (truthy (of_ostr (Data.post_id data))); cbn [negb].
  - match goal with
    | |- context [updatePost E st ?d ?i ?m ?q ?c] =>
        destruct (updatePost_keeps st d i m q c) as (_ & _ & Hdom);
        destruct (updatePost E st d i m q c) as [[r st']|]
    end; cbn [bind committed] in *.
    2:{ split; [done|]. split; [apply union_subseteq_l|done]. }
    simpl. rewrite Hdom. split; [done|]. split; [apply union_subseteq_l|done].
  - match goal with
    | |- context [createPost E st ?d ?s ?m ?q ?p ?n] =>
        destruct (createPost_keeps st d s m q p n) as (_ & _ & Hp);
        destruct (createPost E st d s m q p n) as [r st']
    end.
    cbn [committed]. simpl in Hp.
    destruct Hp as [-> | [row ->]].
    { split; [done|]. split; [apply union_subseteq_l|done]. }
    rewrite dom_insert_L. split; [apply union_subseteq_r|].
    split; [by rewrite (comm_L (∪))|done].
Qed.
End Keeps.

(** ** More on the creation of a post *)

(** The lookup of a key in the object [fixData] builds. *)
Ltac fixData_lookup :=
  unfold fixData;
  match goal with
  | |- context [mergeKeywords ?e ?k] => destruct (mergeKeywords e k)
  end;
  cbn [fixedData]; rewrite !list_to_map_cons; by simplify_map_eq.

Section Creation.
Context (E : Env).

Lemma fixData_url amb st data :
  fixedData (fixData E amb st data) !! "url" = Some (of_ostr (Data.url data))
  ∧ fixedData (fixData E amb st data) !! "canonicalUrl"
    = Some (js_or (extra_str data Extra.canonical_url)
              (of_ostr (Data.url data))).
Proof. split; fixData_lookup. Qed.

Lemma fixData_origin amb st data :
  fixedData (fixData E amb st data) !! "origin"
    = Some (of_ostr (Data.origin data))
  ∧ fixedData (fixData E amb st data) !! "scoutId" = None
  ∧ fixedData (fixData E amb st data) !! "type" = None.
Proof. repeat split; fixData_lookup. Qed.

(** A creation went through the duplicate check and, with a submission,
    accepted it. *)
Lemma createPost_created_from st data sid mk qs pid now st' :
  createPost E st data sid mk qs pid now = (RetUndefined, st') →
  ∃ st1 data1,
    createPost_save E st1 data1 mk qs pid now = (RetUndefined, st')
    ∧ posts st1 = posts st
    ∧ postKeywords st1 = postKeywords st
    ∧ postQuestions st1 = postQuestions st
    ∧ existingPost st data = false
    ∧ ((st1 = st ∧ data1 = data
        ∧ (truthy (of_ostr sid) = false
           ∨ submissions st !! default "" sid = None))
       ∨ ∃ submission,
           truthy (of_ostr sid) = true
           ∧ submissions st !! default "" sid = Some submission
           ∧ data1 = <["scoutId" := VStr (Submission.userId submission)]> data).
Proof.
  unfold createPost. intros H.
  destruct (existingPost st data); [done|].
  destruct (truthy (of_ostr sid)).
  2:{ exists st, data. do 5 (split; [done|]). left. eauto. }
  destruct (submissions st !! default "" sid) as [sub|].
  2:{ exists st, data. do 5 (split; [done|]). left. eauto. }
  destruct (strict_eq _ _); [done|].
  eexists _, _. split; [exact H|]. do 4 (split; [done|]). right. by exists sub.
Qed.

(** X3: a creation changes no other post, and with a fresh short id the
    store has one post more. *)
Theorem createPost_adds_one_post st data sid mk qs pid now st' :
  createPost E st data sid mk qs pid now = (RetUndefined, st') →
  (∀ p, p ≠ pid → posts st' !! p = posts st !! p)
  ∧ (posts st !! pid = None → size (posts st') = S (size (posts st))).
Proof.
  intros Hc.
  apply createPost_created_from in Hc as (st1 & data1 & Hs & Hp & _).
  unfold createPost_save in Hs. injection Hs as <-.
  cbn [posts set_posts addQuestions addKeywords set_postKeywords
       set_postQuestions]. rewrite Hp. split.
  - intros p Hne. by rewrite lookup_insert_ne.
  - intros Hfresh. by apply map_size_insert_None.
Qed.

(** The post saved from a payload with a scout holds the scout and has the
    community-picks origin. *)
Lemma createPost_save_scout st data mk qs pid now u :
  data !! "scoutId" = Some (VStr u) → u ≠ "" →
  (createPost_save E st data mk qs pid now).1 = RetUndefined
  ∧ field (createPost_save E st data mk qs pid now).2 pid "scoutId"
    = Some (VStr u)
  ∧ field (createPost_save E st data mk qs pid now).2 pid "origin"
    = Some (VStr (PostOrigin_CommunityPicks E)).
Proof.
  intros Hd Hu.
  assert (truthy (VStr u) = true) as Hscout
    by (simpl; by destruct (String.eqb_spec u "")).
  unfold createPost_save, field, addQuestions, addKeywords.
  cbn [fst snd posts set_posts set_postKeywords set_postQuestions].
  rewrite lookup_insert_eq. cbn [mbind option_bind].
  split; [done|]. split.
  - apply (saved_row_lookup _ _ _ _ (VStr u)); [done| by simplify_map_eq |done].
  - unfold prop at 1. rewrite !lookup_insert_ne by done.
    rewrite Hd. change (default VUndefined (Some (VStr u))) with (VStr u).
    rewrite Hscout.
    apply (saved_row_lookup _ _ _ _ (VStr (PostOrigin_CommunityPicks E)));
      [done| by simplify_map_eq |done].
Qed.

(** X4: when [createPost] creates a post for the id of a submission that
    exists, the submission is Accepted, and keeps its user and its reason,
    and the post has the user of the submission as its scout and the
    community-picks origin. *)
Theorem createPost_accepts_submission st data sid submission mk qs pid now
    st' :
  createPost E st data (Some sid) mk qs pid now = (RetUndefined, st') →
  sid ≠ "" →
  submissions st !! sid = Some submission →
  Submission.userId submission ≠ "" →
  submissions st'
  = <[sid := {| Submission.userId := Submission.userId submission;
                Submission.status := Accepted;
                Submission.reason := Submission.reason submission |}]>
      (submissions st)
  ∧ field st' pid "scoutId" = Some (VStr (Submission.userId submission))
  ∧ field st' pid "origin" = Some (VStr (PostOrigin_CommunityPicks E)).
Proof.
  intros Hc Hsid Hs Hu. unfold createPost in Hc.
  destruct (existingPost st data); [done|].
  assert (truthy (of_ostr (Some sid)) = true) as Htr
    by (simpl; by destruct (String.eqb_spec sid "")).
  rewrite Htr in Hc. change (default "" (Some sid)) with sid in Hc.
  rewrite Hs in Hc. destruct (strict_eq _ _); [done|].
  set (u := Submission.userId submission) in *.
  match type of Hc with
  | context [set_submissions st ?m] =>
      set (st1 := set_submissions st m) in *
  end.
  destruct (createPost_save_scout st1 (<["scoutId" := VStr u]> data) mk qs pid
              now u) as (_ & H2 & H3); [by simplify_map_eq|done|].
  rewrite Hc in H2, H3. cbn [snd] in H2, H3.
  split; [|done].
  unfold createPost_save, addQuestions, addKeywords in Hc.
  injection Hc as <-. by cbn.
Qed.

(** The post [createPost] creates holds every defined field of its
    payload, but for the fields it stamps. *)
Lemma createPost_field st data sid mk qs pid now st' k v :
  createPost E st data sid mk qs pid now = (RetUndefined, st') →
  k ∉ ["id"; "shortId"; "createdAt"; "score"; "origin"; "type"; "scoutId"] →
  data !! k = Some v →
  is_undefined v = false →
  field st' pid k = Some (to_column v).
Proof.
  intros Hc Hk Hv Hd.
  apply createPost_created in Hc as (st0 & data1 & Hs & Hsame).
  destruct (createPost_save_row E st0 data1 mk qs pid now)
    as (row & Hrow & _ & _ & _ & _ & Hfields).
  rewrite Hs in Hrow. simpl in Hrow.
  unfold field. rewrite Hrow. cbn [mbind option_bind].
  apply Hfields; [|by rewrite Hsame; [|intros ->; apply Hk; in_list]|done].
  rewrite !not_elem_of_cons in Hk. rewrite !not_elem_of_cons. tauto.
Qed.

(** What the body of the transaction does on a create event. *)
Lemma transaction_created amb st data st' :
  transaction E amb st data = Ok (Created RetUndefined, st') →
  createPost E st (fixedData (fixData E amb st data))
    (Data.submission_id data) (fd_mergedKeywords (fixData E amb st data))
    (fd_questions (fixData E amb st data)) (generatedShortId amb)
    (nowCreatedAt amb) = (RetUndefined, st').
Proof.
  unfold transaction. intros H.
  destruct (truthy (of_ostr (Data.reject_reason data))); [done|].
  destruct (match extra_str data Extra.creator_twitter with
            | VStr s => bool_decide (s ∈ bannedAuthors E)
            | _ => false
            end); [done|].
  destruct (negb (truthy (of_ostr (Data.post_id data)))).
  2:{ by destruct (updatePost _ _ _ _ _ _ _). }
  destruct (createPost _ _ _ _ _ _ _ _) as [r st1] eqn:Hc.
  by injection H as -> ->.
Qed.

Lemma created_post_field amb st data st' k v :
  transaction E amb st data = Ok (Created RetUndefined, st') →
  k ∉ ["id"; "shortId"; "createdAt"; "score"; "origin"; "type"; "scoutId"] →
  fixedData (fixData E amb st data) !! k = Some v →
  is_undefined v = false →
  field st' (generatedShortId amb) k = Some (to_column v).
Proof.
  intros Ht. apply transaction_created in Ht. by eapply createPost_field.
Qed.

(** X5: the post a create event creates has the url of the event as its
    url, and as its canonical url the canonical url of the event, or its url
    when the event has none or an empty one. *)
Theorem created_post_urls amb st data st' u :
  transaction E amb st data = Ok (Created RetUndefined, st') →
  Data.url data = Some u →
  field st' (generatedShortId amb) "url" = Some (VStr u)
  ∧ field st' (generatedShortId amb) "canonicalUrl"
    = Some (VStr (match Data.extra data with
                  | Some e =>
                      match Extra.canonical_url e with
                      | Some c => if String.eqb c "" then u else c
                      | None => u
                      end
                  | None => u
                  end)).
Proof.
  intros Ht Hu. destruct (fixData_url amb st data) as [H1 H2].
  rewrite Hu in H1, H2. split.
  - by apply (created_post_field amb st data st' "url" (VStr u));
      [|not_in_list| |].
  - assert (∀ v, fixedData (fixData E amb st data) !! "canonicalUrl"
                 = Some (VStr v) →
                 field st' (generatedShortId amb) "canonicalUrl"
                 = Some (VStr v)) as Hstored.
    { intros v Hv.
      by apply (created_post_field amb st data st' "canonicalUrl" (VStr v));
        [|not_in_list| |]. }
    unfold extra_str in H2.
    destruct (Data.extra data) as [e|]; [|by apply Hstored].
    destruct (Extra.canonical_url e) as [c|]; [|by apply Hstored].
    unfold js_or in H2. simpl in H2.
    destruct (String.eqb c ""); by apply Hstored.
Qed.
End Creation.

(** ** More on the update of a post *)

Lemma to_row_lookup_undefined (o : gmap string Value) (k : string) :
  o !! k = Some VUndefined → to_row o !! k = None.
Proof.
  intros Hk. unfold to_row, defined_fields. rewrite lookup_fmap.
  rewrite map_lookup_filter_None_2; [done|]. right. intros v Hv.
  rewrite Hk in Hv. by injection Hv as <-.
Qed.

(** The column [update] leaves in a row for a property of the partial
    entity: an [undefined] property is not written. *)
Lemma update_row_col (partial row : gmap string Value) k v :
  partial !! k = Some v →
  col (update_row partial row) k
  = if is_undefined v then col row k else to_column v.
Proof.
  intros Hk. unfold col, update_row. destruct (is_undefined v) eqn:Hv.
  - destruct v; try done. rewrite lookup_union_r; [done|].
    by apply to_row_lookup_undefined.
  - erewrite lookup_union_Some_l; [done|]. by apply to_row_lookup.
Qed.

Lemma update_row_field (partial row : gmap string Value) k v :
  partial !! k = Some v → is_undefined v = false →
  update_row partial row !! k = Some (to_column v).
Proof. intros Hk Hv. apply lookup_union_Some_l. by apply to_row_lookup. Qed.

Lemma update_row_other (partial row : gmap string Value) k :
  partial !! k = None → update_row partial row !! k = row !! k.
Proof.
  intros Hk. unfold update_row. rewrite lookup_union_r; [done|].
  by apply to_row_lookup_None.
Qed.

(** The update of the share rows: a row that does not wrap the post stays
    as it is; a row that wraps it is made visible, with the [visibleAt] of
    the payload, and keeps its other columns but for [private] and
    [flags]. *)
Lemma update_sharePosts_lookup idv data ps p row :
  ps !! p = Some row →
  ∃ row',
    update_sharePosts idv data ps !! p = Some row'
    ∧ (∀ k, k ∉ ["visible"; "visibleAt"; "private"; "flags"] →
         row' !! k = row !! k)
    ∧ (sql_eq (col row "type") (VStr PostType_Share)
       && sql_eq (col row "sharedPostId") idv = false → row' = row)
    ∧ (sql_eq (col row "type") (VStr PostType_Share)
       && sql_eq (col row "sharedPostId") idv = true →
       row' !! "visible" = Some (VBool true)
       ∧ col row' "visibleAt"
         = if is_undefined (prop data "visibleAt") then col row "visibleAt"
           else to_column (prop data "visibleAt")).
Proof.
  intros Hp. unfold update_sharePosts. rewrite lookup_fmap, Hp. simpl.
  eexists. split; [done|].
  destruct (sql_eq _ _ && sql_eq _ _).
  - split; [|split; [done|]].
    + intros k Hk. rewrite !not_elem_of_cons in Hk.
      destruct Hk as (? & ? & ? & ? & _).
      rewrite lookup_insert_ne by done. apply update_row_other.
      by rewrite !lookup_insert_ne.
    + intros _. split.
      * rewrite lookup_insert_ne by done.
        by apply (update_row_field _ _ _ (VBool true)); [simplify_map_eq|].
      * unfold col at 1. rewrite lookup_insert_ne by done.
        apply update_row_col. by simplify_map_eq.
  - split; [done|]. split; [done|]. done.
Qed.

(** The keys [updatePost] keeps for every content type. *)
Lemma allowed_lookup (data : gmap string Value) ct k :
  k ∈ ["id"; "visible"; "visibleAt"; "flags"; "yggdrasilId"] →
  match allowedFieldsMapping !! ct with
  | Some fields => filter (λ kv, kv.1 ∈ allowedFields fields) data
  | None => data
  end !! k = data !! k.
Proof.
  intros Hk. destruct (allowedFieldsMapping !! ct) as [fields|]; [|done].
  destruct (data !! k) as [v|] eqn:Hv.
  - apply map_lookup_filter_Some_2; [done|]. simpl. unfold allowedFields.
    apply elem_of_app. by left.
  - apply map_lookup_filter_None_2. by left.
Qed.

Lemma not_freeform_unrestricted ct :
  String.eqb ct PostType_Freeform = false →
  allowedFieldsMapping !! ct = None.
Proof. intros H. apply lookup_singleton_ne. by apply String.eqb_neq in H. Qed.

Lemma freeform_restricted ct :
  String.eqb ct PostType_Freeform = true →
  allowedFieldsMapping !! ct
  = Some ["contentCuration"; "description"; "metadataChangedAt"; "readTime";
          "summary"; "tagsStr"].
Proof. intros H. apply String.eqb_eq in H. by subst ct. Qed.

(** The visibility an update leaves: [visible] is what [updateBecameVisible]
    is, and [visibleAt] is the stored one, or without it the
    [metadataChangedAt] of the payload, when the post is visible, and null
    when it is not. *)
Lemma updatePost_merge_visibility st data id mk qs ct row :
  posts st !! id = Some row →
  col row "type" = VStr ct →
  is_nullish (prop data "metadataChangedAt") = false →
  let st' := updatePost_merge st data id mk qs ct (<["id" := VStr id]> row) in
  let became :=
    if String.eqb ct PostType_Freeform then col row "visible"
    else VBool (negb (truthy (col row "visible"))
                && has_length (js_or (prop data "title") (col row "title"))) in
  column st' id "visible" = to_column became
  ∧ column st' id "visibleAt"
    = if truthy became
      then to_column (js_coalesce (col row "visibleAt")
                        (prop data "metadataChangedAt"))
      else VNull.
Proof.
  intros Hrow Hty Hm st' became. unfold st', updatePost_merge, column, field.
  rewrite posts_reindex, Hrow.
  change (default ∅ (Some row)) with row.
  assert (∀ k, k ≠ "id" → col (<["id" := VStr id]> row) k = col row k) as Hcol
    by (intros k Hk; unfold col; by rewrite lookup_insert_ne).
  rewrite !Hcol by done. fold became.
  set (va := if truthy became
             then js_coalesce (col row "visibleAt")
                    (prop (<["visible" := became]> _) "metadataChangedAt")
             else VNull).
  assert (va = if truthy became
               then js_coalesce (col row "visibleAt")
                      (prop data "metadataChangedAt")
               else VNull) as Hva.
  { unfold va, prop. by rewrite !lookup_insert_ne. }
  assert (is_undefined va = false) as Hvadef.
  { rewrite Hva. destruct (truthy became); [|done].
    destruct (col row "visibleAt"), (prop data "metadataChangedAt"); done. }
  clearbody va.
  set (data5 := match allowedFieldsMapping !! ct with
                | Some fields => filter _ _
                | None => _
                end).
  assert (data5 !! "visible" = Some became) as Hd_vis
    by (unfold data5; rewrite allowed_lookup by in_list; by simplify_map_eq).
  assert (data5 !! "visibleAt" = Some va) as Hd_va
    by (unfold data5; rewrite allowed_lookup by in_list; by simplify_map_eq).
  set (row1 := <["flags" := _]> (update_row data5 row)).
  assert (col row1 "visible" = to_column became) as Hvis1.
  { unfold col at 1, row1. rewrite lookup_insert_ne by done.
    fold (col (update_row data5 row) "visible").
    rewrite (update_row_col _ _ _ _ Hd_vis).
    destruct (is_undefined became) eqn:Hu; [|done].
    destruct became eqn:Hb; try done.
    unfold became in Hb. destruct (String.eqb ct PostType_Freeform); [|done].
    by rewrite Hb. }
  assert (col row1 "visibleAt" = to_column va) as Hva1.
  { unfold col at 1, row1. rewrite lookup_insert_ne by done.
    fold (col (update_row data5 row) "visibleAt").
    by rewrite (update_row_col _ _ _ _ Hd_va), Hvadef. }
  assert (to_column va
          = if truthy became
            then to_column (js_coalesce (col row "visibleAt")
                              (prop data "metadataChangedAt"))
            else VNull) as Hva2
    by (rewrite Hva; by destruct (truthy became)).
  destruct (truthy became) eqn:Htb; cbn [posts set_posts].
  2:{ rewrite lookup_insert_eq. cbn [mbind option_bind].
      fold (col row1 "visible") (col row1 "visibleAt").
      by rewrite Hvis1, Hva1. }
  destruct (update_sharePosts_lookup (prop data5 "id") data5
              (<[id := row1]> (posts st)) id row1)
    as (row' & -> & Hsame & Hno & Hyes); [by rewrite lookup_insert_eq|].
  cbn [mbind option_bind]. fold (col row' "visible") (col row' "visibleAt").
  destruct (sql_eq (col row1 "type") (VStr PostType_Share)
            && sql_eq (col row1 "sharedPostId") (prop data5 "id")) eqn:Hw.
  2:{ rewrite (Hno eq_refl). by rewrite Hvis1, Hva1. }
  destruct (Hyes eq_refl) as [Hv' Hva'].
  unfold col at 1. rewrite Hv'. unfold prop in Hva'. rewrite Hd_va in Hva'.
  change (default VUndefined (Some va)) with va in Hva'.
  rewrite Hvadef in Hva'. rewrite Hva', Hva2. split; [|done].
  change (default VNull (Some (VBool true))) with (VBool true).
  unfold became in *.
  destruct (String.eqb ct PostType_Freeform) eqn:Hf.
  - exfalso. apply String.eqb_eq in Hf. subst ct.
    assert (col row1 "type" = VStr PostType_Freeform) as Hty1.
    { unfold col, row1. rewrite lookup_insert_ne by done.
      rewrite update_row_other; [done|].
      unfold data5. replace (allowedFieldsMapping !! PostType_Freeform)
        with (Some ["contentCuration"; "description"; "metadataChangedAt";
                    "readTime"; "summary"; "tagsStr"]) by done.
      apply filter_allowed_lookup_None. unfold allowedFields. simpl.
      not_in_list. }
    by rewrite Hty1 in Hw.
  - simpl in Htb. by rewrite Htb.
Qed.

(** The posts an update leaves: the row of the post is updated with the
    merged payload, and when the post is visible after the update the share
    rows are updated in turn. *)
Lemma updatePost_merge_posts st data id mk qs ct row :
  posts st !! id = Some row →
  let became :=
    if String.eqb ct PostType_Freeform then col row "visible"
    else VBool (negb (truthy (col row "visible"))
                && has_length (js_or (prop data "title") (col row "title"))) in
  let data4 : gmap string Value :=
    <["sourceId" := js_or (prop data "sourceId") (col row "sourceId")]>
      (<["visibleAt" :=
           if truthy became
           then js_coalesce (col row "visibleAt")
                  (prop data "metadataChangedAt")
           else VNull]>
         (<["visible" := became]>
            (<["title" := js_or (prop data "title") (col row "title")]>
               (<["id" := VStr id]> data)))) in
  let data5 :=
    match allowedFieldsMapping !! ct with
    | Some fields => filter (λ kv, kv.1 ∈ allowedFields fields) data4
    | None => data4
    end in
  ∃ flags,
    posts (updatePost_merge st data id mk qs ct (<["id" := VStr id]> row))
    = if truthy became
      then update_sharePosts (VStr id) data5
             (<[id := <["flags" := flags]> (update_row data5 row)]> (posts st))
      else <[id := <["flags" := flags]> (update_row data5 row)]> (posts st).
Proof.
  intros Hrow became data4 data5. unfold updatePost_merge.
  rewrite posts_reindex, Hrow. change (default ∅ (Some row)) with row.
  assert (∀ k, k ≠ "id" → col (<["id" := VStr id]> row) k = col row k) as Hcol
    by (intros k Hk; unfold col; by rewrite lookup_insert_ne).
  assert (col (<["id" := VStr id]> row) "id" = VStr id) as ->
    by (unfold col; by rewrite lookup_insert_eq).
  rewrite !Hcol by done. fold became.
  assert (∀ v,
            prop (<["visible" := v]> (<["title" :=
                    js_or (prop data "title") (col row "title")]>
                    (<["id" := VStr id]> data))) "metadataChangedAt"
            = prop data "metadataChangedAt") as ->
    by (intros v; unfold prop; by rewrite !lookup_insert_ne).
  match goal with
  | |- context [js_or (prop ?d "sourceId") (col row "sourceId")] =>
      assert (prop d "sourceId" = prop data "sourceId") as ->
        by (unfold prop; by rewrite !lookup_insert_ne)
  end.
  fold data4. fold data5.
  assert (prop data5 "id" = VStr id) as ->.
  { unfold prop, data5. rewrite allowed_lookup by in_list.
    unfold data4. rewrite !lookup_insert_ne by done.
    by rewrite lookup_insert_eq. }
  exists (updateFlagsStatement
            (<["visible" := prop data5 "visible"]> (spread (prop data5 "flags")))
            row).
  destruct (truthy became); reflexivity.
Qed.

(** The row of the post after an update: but for the columns the update of
    the share rows writes, it is the stored row updated with the merged
    payload. *)
Lemma updatePost_merge_row st data id mk qs ct row :
  posts st !! id = Some row →
  let became :=
    if String.eqb ct PostType_Freeform then col row "visible"
    else VBool (negb (truthy (col row "visible"))
                && has_length (js_or (prop data "title") (col row "title"))) in
  let data4 : gmap string Value :=
    <["sourceId" := js_or (prop data "sourceId") (col row "sourceId")]>
      (<["visibleAt" :=
           if truthy became
           then js_coalesce (col row "visibleAt")
                  (prop data "metadataChangedAt")
           else VNull]>
         (<["visible" := became]>
            (<["title" := js_or (prop data "title") (col row "title")]>
               (<["id" := VStr id]> data)))) in
  let data5 :=
    match allowedFieldsMapping !! ct with
    | Some fields => filter (λ kv, kv.1 ∈ allowedFields fields) data4
    | None => data4
    end in
  ∃ row',
    posts (updatePost_merge st data id mk qs ct (<["id" := VStr id]> row))
      !! id = Some row'
    ∧ ∀ k, k ∉ ["visible"; "visibleAt"; "private"; "flags"] →
        row' !! k = update_row data5 row !! k.
Proof.
  intros Hrow became data4 data5.
  destruct (updatePost_merge_posts st data id mk qs ct row Hrow)
    as [flags ->].
  fold became. fold data4. fold data5.
  assert (∀ k, k ∉ ["visible"; "visibleAt"; "private"; "flags"] →
            (<["flags" := flags]> (update_row data5 row)) !! k
            = update_row data5 row !! k) as Hflags.
  { intros k Hk. rewrite !not_elem_of_cons in Hk.
    destruct Hk as (_ & _ & _ & ? & _). by rewrite lookup_insert_ne. }
  destruct (truthy became).
  - destruct (update_sharePosts_lookup (VStr id) data5
                (<[id := <["flags" := flags]> (update_row data5 row)]>
                   (posts st)) id
                (<["flags" := flags]> (update_row data5 row)))
      as (row' & -> & Hsame & _); [by rewrite lookup_insert_eq|].
    exists row'. split; [done|]. intros k Hk.
    by rewrite Hsame, Hflags.
  - rewrite lookup_insert_eq. eexists. split; [done|]. exact Hflags.
Qed.

(** The [metadataChangedAt] of the payload is kept for every content
    type. *)
Lemma allowed_lookup_metadataChangedAt (data : gmap string Value) ct :
  match allowedFieldsMapping !! ct with
  | Some fields => filter (λ kv, kv.1 ∈ allowedFields fields) data
  | None => data
  end !! "metadataChangedAt" = data !! "metadataChangedAt".
Proof.
  destruct (String.eqb ct PostType_Freeform) eqn:Hf.
  - rewrite (freeform_restricted _ Hf).
    destruct (data !! "metadataChangedAt") as [v|] eqn:Hv.
    + apply map_lookup_filter_Some_2; [done|]. unfold allowedFields. simpl.
      in_list.
    + apply map_lookup_filter_None_2. by left.
  - by rewrite (not_freeform_unrestricted _ Hf).
Qed.

(** The update writes no [type]: a payload without one leaves the type of
    the post. *)
Lemma allowed_lookup_None (data : gmap string Value) ct k :
  data !! k = None →
  match allowedFieldsMapping !! ct with
  | Some fields => filter (λ kv, kv.1 ∈ allowedFields fields) data
  | None => data
  end !! k = None.
Proof.
  intros Hk. destruct (allowedFieldsMapping !! ct); [|done].
  apply map_lookup_filter_None_2. by left.
Qed.

Lemma string_ge_refl s : string_ge s s = true.
Proof.
  unfold string_ge. by destruct (String.leb_total s s).
Qed.

Lemma truthy_to_column v : truthy (to_column v) = truthy v.
Proof. by destruct v. Qed.

Section Update.
Context (E : Env).

(** An update that is applied found the post under its content type, with a
    date as its [metadataChangedAt] whose ISO string is before the one of
    the payload. *)
Lemma updatePost_applied_dates st data id mk qs ct st' :
  updatePost E st data id mk qs ct = Ok (RetUndefined, st') →
  ∃ row t_stored t_incoming,
    posts st !! id = Some row
    ∧ col row "type" = VStr (default PostType_Article ct)
    ∧ col row "metadataChangedAt" = VDate (Some t_stored)
    ∧ prop data "metadataChangedAt" = VDate (Some t_incoming)
    ∧ string_ge (iso_of_time t_stored) (iso_of_time t_incoming) = false
    ∧ st' = updatePost_merge st
              (if strict_eq (prop data "origin") (VStr (PostOrigin_Squad E))
               then <["sourceId" := VStr (UNKNOWN_SOURCE E)]> data else data)
              id mk qs (default PostType_Article ct) (<["id" := VStr id]> row).
Proof.
  unfold updatePost. intros H.
  destruct (contentTypeFromPostType _) as [pt|] eqn:Hpt; [|done].
  apply contentTypeFromPostType_Some in Hpt as ->.
  destruct (findOneBy _ _ _) as [db|] eqn:Hdb; [|done].
  apply findOneBy_Some in Hdb as (row & Hrow & Hty & ->).
  assert (col (<["id" := VStr id]> row) "metadataChangedAt"
          = col row "metadataChangedAt") as Hcol
    by (unfold col; by rewrite lookup_insert_ne).
  rewrite Hcol in H.
  match type of H with
  | context [toISOString (prop ?d "metadataChangedAt")] =>
      assert (prop d "metadataChangedAt" = prop data "metadataChangedAt")
        as Hprop
        by (destruct (strict_eq _ _); unfold prop;
            by rewrite ?lookup_insert_ne);
      rewrite Hprop in H
  end.
  destruct (col row "metadataChangedAt") as [| | | | |[t_s|]| |] eqn:Hs;
    try done.
  destruct (prop data "metadataChangedAt") as [| | | | |[t_i|]| |] eqn:Hi;
    try done.
  simpl in H. destruct (string_ge _ _) eqn:Hge; [done|]. injection H as <-.
  exists row, t_s, t_i. by repeat split.
Qed.

Lemma column_field st id k v :
  column st id k = v → v ≠ VNull → field st id k = Some v.
Proof.
  unfold column. destruct (field st id k); simpl; [by intros ->|congruence].
Qed.

Lemma squad_prop data k :
  k ≠ "sourceId" →
  prop (if strict_eq (prop data "origin") (VStr (PostOrigin_Squad E))
        then <["sourceId" := VStr (UNKNOWN_SOURCE E)]> data else data) k
  = prop data k.
Proof.
  intros Hk. destruct (strict_eq _ _); [|done].
  unfold prop. by rewrite lookup_insert_ne.
Qed.

(** X6: an update of a post that is not freeform makes a post visible that
    was not and has a title, of the payload or stored: its [visibleAt] is
    the stored one or, without a stored one, the [metadataChangedAt] of the
    payload.  The share rows that wrap the post become visible with the same
    [visibleAt] and keep their other columns but for [private] and [flags];
    every other row stays as it is. *)
Theorem updatePost_becomes_visible st data id mk qs ct st' :
  updatePost E st data id mk qs ct = Ok (RetUndefined, st') →
  ct ≠ Some PostType_Freeform →
  truthy (column st id "visible") = false →
  has_length (js_or (prop data "title") (column st id "title")) = true →
  field st' id "visible" = Some (VBool true)
  ∧ (∀ d, column st id "visibleAt" = VDate d →
       field st' id "visibleAt" = Some (VDate d))
  ∧ (is_nullish (column st id "visibleAt") = true →
       field st' id "visibleAt" = Some (prop data "metadataChangedAt"))
  ∧ (∀ p row, p ≠ id → posts st !! p = Some row →
       (wraps row id = false → posts st' !! p = Some row)
       ∧ (wraps row id = true →
          field st' p "visible" = Some (VBool true)
          ∧ column st' p "visibleAt" = column st' id "visibleAt"
          ∧ ∀ k, k ∉ ["visible"; "visibleAt"; "private"; "flags"] →
              field st' p k = row !! k)).
Proof.
  intros Hu Hct Hvis Htitle.
  apply updatePost_applied_dates in Hu
    as (row & t_s & t_i & Hrow & Hty & Hs & Hi & _ & ->).
  rewrite !(column_row _ _ _ _ Hrow) in *.
  assert (String.eqb (default PostType_Article ct) PostType_Freeform = false)
    as Hne.
  { apply String.eqb_neq. destruct ct as [c|]; [|done]. simpl. congruence. }
  set (data' := if strict_eq _ _ then _ else data).
  assert (prop data' "title" = prop data "title") as Ht' by by apply squad_prop.
  assert (prop data' "metadataChangedAt" = VDate (Some t_i)) as Hi'
    by (unfold data'; by rewrite squad_prop).
  destruct (updatePost_merge_visibility st data' id mk qs
              (default PostType_Article ct) row Hrow Hty)
    as [Hv Hva]; [by rewrite Hi'|].
  rewrite Hne, Ht', Hvis, Htitle in Hv, Hva. simpl in Hv, Hva.
  rewrite Hi' in Hva.
  split; [by apply column_field|]. split; [|split].
  - intros d Hd. rewrite Hd in Hva. by apply column_field.
  - intros Hn. rewrite Hi. apply column_field; [|done].
    rewrite Hva. by destruct (col row "visibleAt").
  - intros p rowp Hp Hrowp.
    destruct (updatePost_merge_posts st data' id mk qs
                (default PostType_Article ct) row Hrow) as [flags Hposts].
    rewrite Hne, Ht', Hvis, Htitle, (not_freeform_unrestricted _ Hne)
      in Hposts.
    cbn [negb andb truthy] in Hposts.
    match type of Hposts with
    | _ = update_sharePosts _ ?d ?ps =>
        destruct (update_sharePosts_lookup (VStr id) d ps p rowp)
          as (row' & Hrow' & Hsame & Hno & Hyes);
          [by rewrite lookup_insert_ne|];
        assert (prop d "visibleAt"
                = js_coalesce (col row "visibleAt") (VDate (Some t_i)))
          as Hpva
          by (unfold prop at 1; rewrite lookup_insert_ne by done;
              by rewrite lookup_insert_eq, Hi')
    end.
    rewrite <- Hposts in Hrow'. fold (wraps rowp id) in Hno, Hyes.
    split.
    + intros Hw. by rewrite Hrow', (Hno Hw).
    + intros Hw. destruct (Hyes Hw) as [Hv' Hva']. unfold column, field.
      rewrite Hrow'. cbn [mbind option_bind]. split; [done|]. split; [|done].
      fold (col row' "visibleAt"). rewrite Hva', Hpva.
      fold (field (updatePost_merge st data' id mk qs
                     (default PostType_Article ct) (<["id" := VStr id]> row))
              id "visibleAt").
      fold (column (updatePost_merge st data' id mk qs
                      (default PostType_Article ct) (<["id" := VStr id]> row))
              id "visibleAt").
      rewrite Hva. by destruct (col row "visibleAt").
Qed.

(** X7: an update of a freeform post keeps the visibility of the post: a
    hidden post stays hidden, with a null [visibleAt], whatever the title;
    a visible post stays visible and keeps its [visibleAt], or gets the
    [metadataChangedAt] of the payload when it had none. *)
Theorem updatePost_freeform_keeps_visibility st data id mk qs st' b :
  updatePost E st data id mk qs (Some PostType_Freeform)
    = Ok (RetUndefined, st') →
  column st id "visible" = VBool b →
  column st' id "visible" = VBool b
  ∧ if b
    then (∀ d, column st id "visibleAt" = VDate d →
            column st' id "visibleAt" = VDate d)
         ∧ (is_nullish (column st id "visibleAt") = true →
            column st' id "visibleAt" = prop data "metadataChangedAt")
    else column st' id "visibleAt" = VNull.
Proof.
  intros Hu Hvis.
  apply updatePost_applied_dates in Hu
    as (row & t_s & t_i & Hrow & Hty & Hs & Hi & _ & ->).
  rewrite !(column_row _ _ _ _ Hrow) in *.
  change (default PostType_Article (Some PostType_Freeform))
    with PostType_Freeform in *.
  set (data' := if strict_eq _ _ then _ else data).
  assert (prop data' "metadataChangedAt" = VDate (Some t_i)) as Hi'
    by (unfold data'; by rewrite squad_prop).
  destruct (updatePost_merge_visibility st data' id mk qs PostType_Freeform
              row Hrow Hty)
    as [Hv Hva]; [by rewrite Hi'|].
  change (String.eqb PostType_Freeform PostType_Freeform) with true in Hv, Hva.
  cbv iota in Hv, Hva. rewrite Hvis in Hv, Hva. rewrite Hi' in Hva.
  split; [done|]. destruct b; simpl in Hva; [|done]. split.
  - intros d Hd. by rewrite Hd in Hva.
  - intros Hn. rewrite Hva, Hi. by destruct (col row "visibleAt").
Qed.

(** X8: after an update that is applied, of any content type, the post is
    visible exactly when it has a [visibleAt]. *)
Theorem updatePost_visible_iff_visibleAt st data id mk qs ct st' :
  updatePost E st data id mk qs ct = Ok (RetUndefined, st') →
  truthy (column st' id "visible")
  = negb (is_nullish (column st' id "visibleAt")).
Proof.
  intros Hu.
  apply updatePost_applied_dates in Hu
    as (row & t_s & t_i & Hrow & Hty & Hs & Hi & _ & ->).
  set (data' := if strict_eq _ _ then _ else data).
  assert (prop data' "metadataChangedAt" = VDate (Some t_i)) as Hi'
    by (unfold data'; by rewrite squad_prop).
  destruct (updatePost_merge_visibility st data' id mk qs
              (default PostType_Article ct) row Hrow Hty)
    as [-> ->]; [by rewrite Hi'|].
  rewrite truthy_to_column, Hi'.
  destruct (truthy _); [|done]. by destruct (col row "visibleAt").
Qed.

(** X9: an update with the squad origin, of a post that is not freeform,
    stores the unknown source as the source of the post, whatever source
    the payload names. *)
Theorem updatePost_squad_source st data id mk qs ct st' :
  updatePost E st data id mk qs ct = Ok (RetUndefined, st') →
  ct ≠ Some PostType_Freeform →
  strict_eq (prop data "origin") (VStr (PostOrigin_Squad E)) = true →
  UNKNOWN_SOURCE E ≠ "" →
  field st' id "sourceId" = Some (VStr (UNKNOWN_SOURCE E)).
Proof.
  intros Hu Hct Hsquad Hunk.
  apply updatePost_applied_dates in Hu
    as (row & t_s & t_i & Hrow & Hty & Hs & Hi & _ & ->).
  assert (String.eqb (default PostType_Article ct) PostType_Freeform = false)
    as Hne.
  { apply String.eqb_neq. destruct ct as [c|]; [|done]. simpl. congruence. }
  rewrite Hsquad.
  destruct (updatePost_merge_row st
              (<["sourceId" := VStr (UNKNOWN_SOURCE E)]> data) id mk qs
              (default PostType_Article ct) row Hrow)
    as (row' & Hrow' & Hsame).
  unfold field. rewrite Hrow'. cbn [mbind option_bind].
  rewrite Hsame by not_in_list.
  rewrite (not_freeform_unrestricted _ Hne).
  apply (update_row_field _ _ _ (VStr (UNKNOWN_SOURCE E))); [|done].
  rewrite lookup_insert_eq. unfold prop at 1. rewrite lookup_insert_eq.
  change (default VUndefined (Some (VStr (UNKNOWN_SOURCE E))))
    with (VStr (UNKNOWN_SOURCE E)).
  unfold js_or. simpl. by destruct (String.eqb_spec (UNKNOWN_SOURCE E) "").
Qed.

(** X10: an update of a post that is not freeform whose payload has no
    title, or an empty one, keeps the stored title; one without a source,
    and not of the squad origin, keeps the stored source. *)
Theorem updatePost_keeps_title_and_source st data id mk qs ct st' :
  updatePost E st data id mk qs ct = Ok (RetUndefined, st') →
  ct ≠ Some PostType_Freeform →
  (∀ s, truthy (prop data "title") = false →
        column st id "title" = VStr s →
        field st' id "title" = Some (VStr s))
  ∧ (∀ s, truthy (prop data "sourceId") = false →
          strict_eq (prop data "origin") (VStr (PostOrigin_Squad E)) = false →
          column st id "sourceId" = VStr s →
          field st' id "sourceId" = Some (VStr s)).
Proof.
  intros Hu Hct.
  apply updatePost_applied_dates in Hu
    as (row & t_s & t_i & Hrow & Hty & Hs & Hi & _ & ->).
  rewrite !(column_row _ _ _ _ Hrow).
  assert (String.eqb (default PostType_Article ct) PostType_Freeform = false)
    as Hne.
  { apply String.eqb_neq. destruct ct as [c|]; [|done]. simpl. congruence. }
  set (data' := if strict_eq _ _ then _ else data).
  destruct (updatePost_merge_row st data' id mk qs
              (default PostType_Article ct) row Hrow)
    as (row' & Hrow' & Hsame).
  rewrite (not_freeform_unrestricted _ Hne) in Hsame.
  unfold field. rewrite Hrow'. cbn [mbind option_bind]. split.
  - intros s Ht Hst. rewrite Hsame by not_in_list.
    apply (update_row_field _ _ _ (VStr s)); [|done].
    rewrite !lookup_insert_ne by done. rewrite lookup_insert_eq.
    unfold data'. rewrite squad_prop by done. unfold js_or.
    by rewrite Ht, Hst.
  - intros s Hsrc Hsq Hst. rewrite Hsame by not_in_list.
    apply (update_row_field _ _ _ (VStr s)); [|done].
    rewrite lookup_insert_eq. unfold data'. rewrite Hsq. unfold js_or.
    by rewrite Hsrc, Hst.
Qed.

(** The [metadataChangedAt] and the type of the post after an update. *)
Lemma updatePost_merge_metadataChangedAt st data id mk qs ct row v :
  posts st !! id = Some row →
  data !! "metadataChangedAt" = Some v → is_undefined v = false →
  field (updatePost_merge st data id mk qs ct (<["id" := VStr id]> row)) id
    "metadataChangedAt" = Some (to_column v).
Proof.
  intros Hrow Hv Hd.
  destruct (updatePost_merge_row st data id mk qs ct row Hrow)
    as (row' & Hrow' & Hsame).
  unfold field. rewrite Hrow'. cbn [mbind option_bind].
  rewrite Hsame by not_in_list. apply update_row_field; [|done].
  rewrite allowed_lookup_metadataChangedAt. by rewrite !lookup_insert_ne.
Qed.

Lemma updatePost_merge_type st data id mk qs ct row :
  posts st !! id = Some row →
  data !! "type" = None →
  field (updatePost_merge st data id mk qs ct (<["id" := VStr id]> row)) id
    "type" = row !! "type".
Proof.
  intros Hrow Hv.
  destruct (updatePost_merge_row st data id mk qs ct row Hrow)
    as (row' & Hrow' & Hsame).
  unfold field. rewrite Hrow'. cbn [mbind option_bind].
  rewrite Hsame by not_in_list. apply update_row_other.
  apply allowed_lookup_None. by rewrite !lookup_insert_ne.
Qed.

Lemma squad_lookup data k :
  k ≠ "sourceId" →
  (if strict_eq (prop data "origin") (VStr (PostOrigin_Squad E))
   then <["sourceId" := VStr (UNKNOWN_SOURCE E)]> data else data) !! k
  = data !! k.
Proof.
  intros Hk. destruct (strict_eq _ _); [|done]. by rewrite lookup_insert_ne.
Qed.

Lemma updatePost_content_type st data id mk qs ct r st' :
  updatePost E st data id mk qs ct = Ok (r, st') →
  contentTypeFromPostType (default PostType_Article ct)
  = Some (default PostType_Article ct).
Proof.
  unfold updatePost.
  destruct (contentTypeFromPostType _) as [pt|] eqn:Hpt; [|done].
  by rewrite (contentTypeFromPostType_Some _ _ Hpt) at 2.
Qed.

(** X11: a newer update is not discarded as stale: when [updatePost]
    returns, for a post stored under its content type whose
    [metadataChangedAt] is before the one of the payload, both in years of
    four digits, it returns after the update and not with [null], and the
    post has the [metadataChangedAt] of the payload. *)
Theorem updatePost_applies_newer st data id mk qs ct t_stored t_incoming r
    st' :
  updatePost E st data id mk qs ct = Ok (r, st') →
  field st id "type" = Some (VStr (default PostType_Article ct)) →
  field st id "metadataChangedAt" = Some (VDate (Some t_stored)) →
  data !! "metadataChangedAt" = Some (VDate (Some t_incoming)) →
  four_digit_year t_stored → four_digit_year t_incoming →
  t_stored < t_incoming →
  r = RetUndefined
  ∧ field st' id "metadataChangedAt" = Some (VDate (Some t_incoming)).
Proof.
  intros Hret Hty Hs Hi R1 R2 Hlt.
  pose proof (updatePost_content_type _ _ _ _ _ _ _ _ Hret) as Hpt.
  pose proof (updatePost_fresh_applied E st data id mk qs ct _ t_stored
                t_incoming Hpt Hty Hs Hi R1 R2 Hlt) as Happlied.
  rewrite Hret in Happlied. injection Happlied as ->. split; [done|].
  apply updatePost_applied_dates in Hret
    as (row & t_s & t_i & Hrow & _ & _ & _ & _ & ->).
  apply (updatePost_merge_metadataChangedAt _ _ _ _ _ _ _
           (VDate (Some t_incoming))); [done| |done].
  by rewrite squad_lookup.
Qed.

(** X12: an update that is applied replaces a stored [metadataChangedAt] by
    the one of the payload, which, when both are in years of four digits,
    is later. *)
Theorem updatePost_metadataChangedAt_forward st data id mk qs ct st' :
  updatePost E st data id mk qs ct = Ok (RetUndefined, st') →
  ∃ t_stored t_incoming,
    column st id "metadataChangedAt" = VDate (Some t_stored)
    ∧ prop data "metadataChangedAt" = VDate (Some t_incoming)
    ∧ field st' id "metadataChangedAt" = Some (VDate (Some t_incoming))
    ∧ (four_digit_year t_stored → four_digit_year t_incoming →
       t_stored < t_incoming).
Proof.
  intros Hu.
  apply updatePost_applied_dates in Hu
    as (row & t_s & t_i & Hrow & _ & Hs & Hi & Hge & ->).
  exists t_s, t_i. rewrite (column_row _ _ _ _ Hrow).
  split; [done|]. split; [done|]. split.
  - apply (updatePost_merge_metadataChangedAt _ _ _ _ _ _ _
             (VDate (Some t_i))); [done| |done].
    rewrite squad_lookup by done. unfold prop in Hi.
    destruct (data !! "metadataChangedAt") as [v|]; [|done].
    simpl in Hi. by rewrite Hi.
  - intros R1 R2. rewrite string_ge_iso in Hge by done.
    by destruct (Z.leb_spec t_i t_s).
Qed.

(** X13: an update for a content type under which the post is not stored,
    because there is no such post or because it is of another type, does
    nothing. *)
Theorem updatePost_other_type_noop st data id mk qs ct pt :
  contentTypeFromPostType (default PostType_Article ct) = Some pt →
  column st id "type" ≠ VStr pt →
  updatePost E st data id mk qs ct = Ok (RetNull, st).
Proof.
  intros Hpt Hty. unfold updatePost. rewrite Hpt. unfold findOneBy.
  unfold column, field in Hty.
  destruct (posts st !! id) as [row|]; [|done]. simpl in Hty.
  fold (col row "type") in Hty.
  assert (strict_eq (col row "type") (VStr pt) = false) as ->; [|done].
  destruct (col row "type") as [| | | |t| | |]; try done. simpl.
  apply String.eqb_neq. congruence.
Qed.
End Update.

(** ** Deliveries of a message *)

Section Deliveries.
Context (E : Env).

Lemma fixData_metadataChangedAt amb st data s :
  Data.updated_at data = Some s → s ≠ "" →
  fixedData (fixData E amb st data) !! "metadataChangedAt"
  = Some (VDate (Date_parse E s)).
Proof.
  intros Hs Hne.
  assert (truthy (VStr s) = true) as Ht
    by (simpl; by destruct (String.eqb_spec s "")).
  unfold fixData. destruct (mergeKeywords E _).
  cbn [fixedData]. rewrite !list_to_map_cons, Hs, Ht. by simplify_map_eq.
Qed.

(** What [fixData] makes of the author and of the urls does not depend on
    the store or on the clock. *)
Lemma fixData_fixed amb st amb' st' data k :
  k ∈ ["authorId"; "url"; "canonicalUrl"] →
  fixedData (fixData E amb st data) !! k
  = fixedData (fixData E amb' st' data) !! k.
Proof.
  intros Hk. unfold fixData. destruct (mergeKeywords E _).
  cbn [fixedData]. rewrite !list_to_map_cons.
  rewrite !elem_of_cons in Hk.
  destruct Hk as [-> | [-> | [-> | Hk]]]; [| | |by apply elem_of_nil in Hk];
    by simplify_map_eq.
Qed.

(** A run of [updatePost] that is not applied leaves the store, and so does
    a run for the same post of any payload with the same
    [metadataChangedAt]. *)
Lemma updatePost_not_applied st data data' id mk qs mk' qs' ct :
  prop data "metadataChangedAt" = prop data' "metadataChangedAt" →
  returned (updatePost E st data id mk qs ct) ≠ Some RetUndefined →
  committed st (updatePost E st data' id mk' qs' ct) = st.
Proof.
  intros Hm. unfold updatePost.
  destruct (contentTypeFromPostType _); [|done].
  destruct (findOneBy _ _ _) as [db|]; [|done].
  rewrite !squad_prop by done. rewrite <- Hm.
  destruct (toISOString (col db _)); [|done]. simpl.
  destruct (toISOString (prop data _)); [|done]. simpl.
  by destruct (string_ge _ _).
Qed.

(** X14: an update event whose [updated_at] is not a date the language
    parses changes nothing in the store. *)
Theorem handler_unparseable_date_noop amb st data id s :
  truthy (of_ostr (Data.reject_reason data)) = false →
  Data.post_id data = Some id → id ≠ "" →
  Data.updated_at data = Some s → s ≠ "" →
  Date_parse E s = None →
  handler E amb st data = st.
Proof.
  intros Hr Hp Hid Hs Hne Hparse.
  destruct (match extra_str data Extra.creator_twitter with
            | VStr s => bool_decide (s ∈ bannedAuthors E)
            | _ => false
            end) eqn:Hb.
  { unfold handler, transaction. by rewrite Hr, Hb. }
  rewrite (handler_update E amb st data id Hr Hb Hp Hid).
  pose proof (fixData_metadataChangedAt amb st data s Hs Hne) as Hm.
  rewrite Hparse in Hm.
  unfold updatePost.
  destruct (contentTypeFromPostType _); [|done].
  destruct (findOneBy _ _ _) as [db|]; [|done].
  rewrite squad_prop by done. unfold prop at 1. rewrite Hm. simpl.
  by destruct (toISOString _).
Qed.

(** X15: a rejection that is delivered again changes nothing more. *)
Theorem handler_rejection_redelivery amb amb' st data :
  truthy (of_ostr (Data.reject_reason data)) = true →
  handler E amb' (handler E amb st data) data = handler E amb st data.
Proof.
  intros Hr. unfold handler, transaction. rewrite Hr. simpl.
  unfold handleRejection.
  destruct (negb (truthy (of_ostr (Data.submission_id data)))); [done|].
  destruct (submissions st !! default "" (Data.submission_id data))
    as [sub|] eqn:Hs; [|by rewrite Hs].
  destruct (Submission.status sub) eqn:Hst; [|by rewrite Hs, Hst..].
  simpl. by rewrite lookup_insert_eq.
Qed.

(** The duplicate check reads the posts of the store and the two urls of
    the payload. *)
Lemma existingPost_ext st st' (data data' : gmap string Value) :
  posts st = posts st' →
  prop data "url" = prop data' "url" →
  prop data "canonicalUrl" = prop data' "canonicalUrl" →
  existingPost st data = existingPost st' data'.
Proof.
  intros Hp Hu Hc. unfold existingPost. rewrite Hp.
  apply bool_decide_ext.
  split; intros (k & row & Hk & Hm); exists k, row; (split; [done|]);
    unfold url_matches in *; [rewrite <- Hu, <- Hc | rewrite Hu, Hc]; done.
Qed.

(** [createPost] run again on the store it left, for a payload with the
    same urls and the same author. *)
Lemma createPost_again st data data' sid mk qs pid now mk' qs' pid' now' u :
  data !! "url" = Some (VStr u) →
  data' !! "url" = Some (VStr u) →
  prop data "canonicalUrl" = prop data' "canonicalUrl" →
  prop data "authorId" = prop data' "authorId" →
  (createPost E (createPost E st data sid mk qs pid now).2 data' sid mk' qs'
     pid' now').2
  = (createPost E st data sid mk qs pid now).2.
Proof.
  intros Hu Hu' Hc Ha.
  assert (prop data "url" = prop data' "url") as Hpu
    by (unfold prop; by rewrite Hu, Hu').
  destruct (createPost E st data sid mk qs pid now) as [[] st1] eqn:Hcr;
    cbn [snd].
  - unfold createPost in Hcr |- *.
    destruct (existingPost st data) eqn:He.
    { injection Hcr as <-.
      by rewrite <- (existingPost_ext st st data data' eq_refl Hpu Hc), He. }
    destruct (truthy (of_ostr sid)) eqn:Hsid; [|by unfold createPost_save in Hcr].
    destruct (submissions st !! default "" sid) as [sub|] eqn:Hsub;
      [|by unfold createPost_save in Hcr].
    destruct (strict_eq _ _) eqn:Hself; [|by unfold createPost_save in Hcr].
    injection Hcr as <-.
    match goal with
    | |- context [existingPost ?s data'] =>
        rewrite <- (existingPost_ext st s data data' eq_refl Hpu Hc)
    end.
    rewrite He.
    cbn [submissions set_submissions]. rewrite lookup_insert_eq.
    cbn [Submission.userId]. rewrite <- Ha, Hself. cbn [snd].
    unfold set_submissions. cbn [posts submissions sources postKeywords
                                 postQuestions].
    by rewrite insert_insert_eq.
  - apply (createPost_field E _ _ _ _ _ _ _ _ "url" (VStr u)) in Hcr;
      [|not_in_list|done|done].
    unfold field in Hcr.
    destruct (posts st1 !! pid) as [row|] eqn:Hrow; [|done].
    simpl in Hcr. unfold createPost.
    by rewrite (existingPost_true st1 data' pid row u Hrow
                  (or_introl Hcr) (or_introl Hu')).
Qed.

(** X16: a create event with a url that is delivered again changes nothing
    more: the post it created, the submission it settled, or the duplicate
    it found, make the second run stop. *)
Theorem handler_create_redelivery amb amb' st data u :
  truthy (of_ostr (Data.reject_reason data)) = false →
  truthy (of_ostr (Data.post_id data)) = false →
  Data.url data = Some u →
  handler E amb' (handler E amb st data) data = handler E amb st data.
Proof.
  intros Hr Hp Hu.
  destruct (match extra_str data Extra.creator_twitter with
            | VStr s => bool_decide (s ∈ bannedAuthors E)
            | _ => false
            end) eqn:Hb.
  { unfold handler, transaction. by rewrite Hr, Hb. }
  rewrite (handler_create E amb st data Hr Hb Hp).
  rewrite (handler_create E amb' _ data Hr Hb Hp).
  assert (∀ amb0 st0,
            fixedData (fixData E amb0 st0 data) !! "url" = Some (VStr u))
    as Hurl.
  { intros amb0 st0. destruct (fixData_url E amb0 st0 data) as [-> _].
    by rewrite Hu. }
  apply (createPost_again _ _ _ _ _ _ _ _ _ _ _ _ u); [done|done| |];
    unfold prop; by erewrite fixData_fixed by in_list.
Qed.

(** [updatePost] run again on the store it left, for a payload with the
    same [metadataChangedAt]. *)
Lemma updatePost_again st data data' id mk qs mk' qs' ct :
  data !! "type" = None →
  prop data "metadataChangedAt" = prop data' "metadataChangedAt" →
  committed (committed st (updatePost E st data id mk qs ct))
    (updatePost E (committed st (updatePost E st data id mk qs ct)) data' id
       mk' qs' ct)
  = committed st (updatePost E st data id mk qs ct).
Proof.
  intros Hty Hm.
  destruct (updatePost E st data id mk qs ct) as [[[] st1]|] eqn:Hu.
  - assert (st1 = st) as ->.
    { pose proof (updatePost_not_applied st data data id mk qs mk qs ct
                    eq_refl) as H. rewrite Hu in H. apply H. by simpl. }
    simpl. apply (updatePost_not_applied st data data' id mk qs); [done|].
    by rewrite Hu.
  - cbn [committed].
    pose proof (updatePost_content_type E _ _ _ _ _ _ _ _ Hu) as Hct.
    apply updatePost_applied_dates in Hu
      as (row & t_s & t_i & Hrow & Hrty & Hs & Hi & _ & ->).
    set (data1 := if strict_eq _ _ then _ else data).
    assert (data1 !! "metadataChangedAt" = Some (VDate (Some t_i))) as Hi1.
    { unfold data1. rewrite squad_lookup by done. unfold prop in Hi.
      destruct (data !! "metadataChangedAt") as [v|]; [|done].
      simpl in Hi. by rewrite Hi. }
    assert (data1 !! "type" = None) as Hty1
      by (unfold data1; by rewrite squad_lookup).
    pose proof (updatePost_merge_metadataChangedAt st data1 id mk qs
                  (default PostType_Article ct) row _ Hrow Hi1 eq_refl) as Hm1.
    pose proof (updatePost_merge_type st data1 id mk qs
                  (default PostType_Article ct) row Hrow Hty1) as Hty2.
    set (st1 := updatePost_merge _ _ _ _ _ _ _) in *.
    unfold field in Hm1, Hty2.
    destruct (posts st1 !! id) as [row'|] eqn:Hrow'; [|done].
    simpl in Hm1, Hty2.
    unfold updatePost. rewrite Hct. unfold findOneBy. rewrite Hrow'.
    unfold col at 1. rewrite Hty2. fold (col row "type"). rewrite Hrty.
    simpl. rewrite String.eqb_refl.
    assert (col (<["id" := VStr id]> row') "metadataChangedAt"
            = VDate (Some t_i)) as ->
      by (unfold col; by rewrite lookup_insert_ne, Hm1).
    rewrite squad_prop by done. rewrite <- Hm, Hi. simpl.
    by rewrite string_ge_refl.
  - simpl. apply (updatePost_not_applied st data data' id mk qs); [done|].
    by rewrite Hu.
Qed.

(** X17: an update event with an [updated_at] that is delivered again
    changes nothing more: the post has the [metadataChangedAt] of the event
    after the first run, which makes the second one stale. *)
Theorem handler_update_redelivery amb amb' st data id s :
  truthy (of_ostr (Data.reject_reason data)) = false →
  Data.post_id data = Some id → id ≠ "" →
  Data.updated_at data = Some s → s ≠ "" →
  handler E amb' (handler E amb st data) data = handler E amb st data.
Proof.
  intros Hr Hp Hid Hs Hne.
  destruct (match extra_str data Extra.creator_twitter with
            | VStr s => bool_decide (s ∈ bannedAuthors E)
            | _ => false
            end) eqn:Hb.
  { unfold handler, transaction. by rewrite Hr, Hb. }
  rewrite (handler_update E amb st data id Hr Hb Hp Hid).
  rewrite (handler_update E amb' _ data id Hr Hb Hp Hid).
  assert (∀ amb0 st0,
            fd_content_type (fixData E amb0 st0 data) = Data.content_type data)
    as Hct by (intros; unfold fixData; by destruct (mergeKeywords E _)).
  rewrite !Hct. apply updatePost_again.
  - by destruct (fixData_origin E amb st data) as (_ & _ & ?).
  - unfold prop. by rewrite !(fixData_metadataChangedAt _ _ _ s).
Qed.
End Deliveries.

(** ** The normalised payload *)

Lemma split_on_no_sep (sep : ascii) (x : string) :
  has_char sep x = false → split_on sep x = [x].
Proof.
  induction x as [|c x IH]; [done|]. simpl. intros H.
  apply orb_false_iff in H as [Hc Hx]. by rewrite Hc, (IH Hx).
Qed.

Lemma split_on_app_sep (sep : ascii) (x r : string) :
  has_char sep x = false →
  split_on sep (x ++ String sep r) = x :: split_on sep r.
Proof.
  induction x as [|c x IH]; simpl.
  - intros _. by rewrite Ascii.eqb_refl.
  - intros H. apply orb_false_iff in H as [Hc Hx]. by rewrite Hc, (IH Hx).
Qed.

(** [l.join(',').split(',')] is [l] for a list that is not empty, of strings
    without a comma. *)
Lemma split_on_join (l : list string) :
  l ≠ [] → Forall (λ k, has_char "," k = false) l →
  split_on "," (join "," l) = l.
Proof.
  intros Hl Hall. unfold join.
  induction Hall as [|x l Hx Hall IH]; [done|].
  destruct l as [|y l].
  - simpl. by apply split_on_no_sep.
  - change (String.concat "," (x :: y :: l))
      with (x ++ String "," (String.concat "," (y :: l))).
    rewrite split_on_app_sep by done. by rewrite IH.
Qed.

Lemma join_not_empty (l : list string) :
  l ≠ [] → Forall (λ k, k ≠ "") l → join "," l ≠ "".
Proof.
  intros Hl Hall. unfold join. destruct Hall as [|x l Hx Hall]; [done|].
  destruct l as [|y l]; [done|].
  change (String.concat "," (x :: y :: l))
    with (x ++ String "," (String.concat "," (y :: l))).
  by destruct x.
Qed.

Section Normalisation.
Context (E : Env).

(** X18: the tag string [fixData] builds from the allowed keywords is split
    by [updatePost] into these keywords again, when none of them is empty
    or has a comma. *)
Theorem tagsStr_round_trip amb st data :
  Forall (λ k, k ≠ "" ∧ has_char "," k = false)
    (mergeKeywords E (extra_arr data Extra.keywords)).1 →
  stored_keywords (prop (fixedData (fixData E amb st data)) "tagsStr")
  = (mergeKeywords E (extra_arr data Extra.keywords)).1.
Proof.
  intros Hall.
  assert (fixedData (fixData E amb st data) !! "tagsStr"
          = Some (js_or (VStr (join ","
                    (mergeKeywords E (extra_arr data Extra.keywords)).1))
                    VNull)) as Htags.
  { unfold fixData. destruct (mergeKeywords E _). cbn [fixedData fst].
    rewrite !list_to_map_cons. by simplify_map_eq. }
  unfold prop. rewrite Htags.
  destruct (mergeKeywords E _) as [allowed merged]. cbn [fst] in *.
  change (default VUndefined (Some ?v)) with v.
  destruct allowed as [|k allowed]; [done|].
  assert (join "," (k :: allowed) ≠ "") as Hne.
  { apply join_not_empty; [done|]. eapply Forall_impl; [exact Hall|].
    by intros ? [? _]. }
  apply String.eqb_neq in Hne.
  assert (split_on "," (join "," (k :: allowed)) = k :: allowed) as Hsplit.
  { apply split_on_join; [done|]. eapply Forall_impl; [exact Hall|].
    by intros ? [_ ?]. }
  clear Htags. set (s := join "," (k :: allowed)) in *. clearbody s.
  unfold js_or, stored_keywords. simpl. rewrite Hne. simpl.
  by rewrite Hne.
Qed.

Lemma fixData_private amb st data :
  fixedData (fixData E amb st data) !! "private"
    = Some (getSourcePrivacy E st data)
  ∧ ∃ bag,
      fixedData (fixData E amb st data) !! "flags" = Some (VObj bag)
      ∧ bag !! "private" = Some (getSourcePrivacy E st data).
Proof.
  unfold fixData. destruct (mergeKeywords E _). cbn [fixedData].
  rewrite !list_to_map_cons. split; [by simplify_map_eq|].
  eexists. split; [by simplify_map_eq|]. by simplify_map_eq.
Qed.

(** X19: the post a create event creates has the privacy of the source the
    event names, as its [private] column and in its flags. *)
Theorem created_post_privacy amb st data st' source_id private :
  transaction E amb st data = Ok (Created RetUndefined, st') →
  Data.source_id data = Some source_id →
  source_id ≠ "" → source_id ≠ UNKNOWN_SOURCE E →
  sources st !! source_id = Some private →
  field st' (generatedShortId amb) "private" = Some (VBool private)
  ∧ ∃ bag,
      field st' (generatedShortId amb) "flags" = Some (VObj bag)
      ∧ bag !! "private" = Some (VBool private).
Proof.
  intros Ht Hsrc Hne Hunk Hpriv.
  assert (getSourcePrivacy E st data = VBool private) as Hp.
  { unfold getSourcePrivacy. rewrite Hsrc. simpl.
    destruct (String.eqb_spec source_id ""); [done|].
    destruct (String.eqb_spec source_id (UNKNOWN_SOURCE E)); [done|].
    simpl. by rewrite Hpriv. }
  destruct (fixData_private amb st data) as (H1 & bag & H2 & H3).
  rewrite Hp in H1, H3. split.
  - by apply (created_post_field E amb st data st' "private" (VBool private));
      [|not_in_list| |].
  - exists (defined_fields bag). split.
    + by apply (created_post_field E amb st data st' "flags" (VObj bag));
        [|not_in_list| |].
    + by apply map_lookup_filter_Some_2.
Qed.

(** X20: the post a create event creates without a submission, because the
    event names none or names one that does not exist, has the origin of
    the event, or the crawler origin when the event has none. *)
Theorem created_post_origin amb st data st' :
  transaction E amb st data = Ok (Created RetUndefined, st') →
  truthy (of_ostr (Data.submission_id data)) = false
  ∨ submissions st !! default "" (Data.submission_id data) = None →
  field st' (generatedShortId amb) "origin"
  = Some (VStr (default (PostOrigin_Crawler E) (Data.origin data))).
Proof.
  intros Ht Hsub. apply transaction_created in Ht.
  apply createPost_created_from in Ht
    as (st1 & data1 & Hs & _ & _ & _ & _ & Hcase).
  destruct Hcase as [(-> & -> & _) | (sub & Htr & Hfound & _)].
  2:{ destruct Hsub as [Hsub | Hsub]; congruence. }
  destruct (fixData_origin E amb st data) as (Ho & Hscout & _).
  unfold createPost_save in Hs. injection Hs as <-.
  unfold field, addQuestions, addKeywords.
  cbn [posts set_posts set_postKeywords set_postQuestions].
  rewrite lookup_insert_eq. cbn [mbind option_bind].
  unfold prop. rewrite !lookup_insert_ne by done. rewrite Hscout, Ho.
  change (truthy (default VUndefined None)) with false. cbv iota.
  change (default VUndefined (Some ?v)) with v.
  apply (saved_row_lookup _ _ _ _
           (VStr (default (PostOrigin_Crawler E) (Data.origin data))));
    [done| |done].
  rewrite lookup_insert_eq. by destruct (Data.origin data).
Qed.
End Normalisation.

(** ** Runs of the further properties *)

(** The run of [updatePost] in the goal is applied. *)
Ltac applied_update H :=
  match goal with
  | |- context [committed ?s ?r] =>
      assert (r = Ok (RetUndefined, committed s r)) as H
        by (apply returned_Ok; vm_compute; reflexivity)
  end.

(** The run of [createPost] in the goal creates the post. *)
Ltac created_post H :=
  match goal with
  | |- context [field ?p.2] =>
      assert (p = (RetUndefined, p.2)) as H
        by (apply fst_pair; vm_compute; reflexivity)
  | |- context [posts ?p.2] =>
      assert (p = (RetUndefined, p.2)) as H
        by (apply fst_pair; vm_compute; reflexivity)
  end.

Lemma createPost_adds_one_post_witness :
  size (posts (handler test_env test_clock empty_store event_hello))
  = S (size (posts empty_store)).
Proof.
  rewrite (handler_create test_env test_clock) by (vm_compute; reflexivity).
  created_post Hcreated.
  apply (proj2 (createPost_adds_one_post _ _ _ _ _ _ _ _ _ Hcreated)).
  reflexivity.
Defined.

Lemma createPost_accepts_submission_witness :
  submissions (handler test_env test_clock store_submission event_submitted)
  = <["s1" := {| Submission.userId := "u1"; Submission.status := Accepted;
                 Submission.reason := None |}]>
      (submissions store_submission)
  ∧ field (handler test_env test_clock store_submission event_submitted) "p1"
      "scoutId" = Some (VStr "u1")
  ∧ field (handler test_env test_clock store_submission event_submitted) "p1"
      "origin" = Some (VStr "community_picks").
Proof.
  rewrite (handler_create test_env test_clock) by (vm_compute; reflexivity).
  change (Data.submission_id event_submitted) with (Some "s1").
  created_post Hcreated.
  exact (createPost_accepts_submission _ _ _ "s1"
           {| Submission.userId := "u1"; Submission.status := Started;
              Submission.reason := None |} _ _ _ _ _ Hcreated
           ltac:(discriminate) eq_refl ltac:(discriminate)).
Defined.

Lemma created_post_urls_witness :
  field (handler test_env test_clock empty_store event_canonical) "p1" "url"
    = Some (VStr "http://m.x.com")
  ∧ field (handler test_env test_clock empty_store event_canonical) "p1"
      "canonicalUrl" = Some (VStr "http://x.com").
Proof.
  exact (created_post_urls test_env test_clock empty_store event_canonical _
           "http://m.x.com"
           (transaction_committed test_env test_clock empty_store
              event_canonical (Created RetUndefined)
              ltac:(vm_compute; reflexivity))
           eq_refl).
Defined.

Lemma updatePost_becomes_visible_witness :
  field (handler test_env test_clock2 store_hidden event_publish) "a1"
    "visible" = Some (VBool true)
  ∧ field (handler test_env test_clock2 store_hidden event_publish) "a1"
      "visibleAt" = Some (VDate (Some 1704067200000))
  ∧ field (handler test_env test_clock2 store_hidden event_publish) "sh1"
      "visible" = Some (VBool true)
  ∧ posts (handler test_env test_clock2 store_hidden event_publish) !! "o1"
    = Some row_o1.
Proof.
  rewrite (handler_update test_env test_clock2 store_hidden event_publish
             "a1") by (vm_compute; done).
  applied_update Happlied.
  destruct (updatePost_becomes_visible _ _ _ _ _ _ _ _ Happlied)
    as (Hv & _ & Hva & Hothers);
    [discriminate | vm_compute; reflexivity | vm_compute; reflexivity |].
  split; [exact Hv|]. split; [apply Hva; vm_compute; reflexivity|].
  split.
  - apply (proj2 (Hothers "sh1" row_sh1 ltac:(discriminate) eq_refl)).
    vm_compute. reflexivity.
  - apply (proj1 (Hothers "o1" row_o1 ltac:(discriminate) eq_refl)).
    vm_compute. reflexivity.
Defined.

Lemma updatePost_freeform_keeps_visibility_witness :
  column (handler test_env test_clock2 store_freeform event_freeform) "f1"
    "visible" = VBool true
  ∧ column (handler test_env test_clock2 store_freeform event_freeform) "f1"
      "visibleAt" = VDate (Some 1690000000000).
Proof.
  rewrite (handler_update test_env test_clock2 store_freeform event_freeform
             "f1") by (vm_compute; done).
  change (fd_content_type _) with (Some PostType_Freeform).
  applied_update Happlied.
  destruct (updatePost_freeform_keeps_visibility _ _ _ _ _ _ _ true Happlied)
    as (Hv & Hva & _); [vm_compute; reflexivity|].
  split; [exact Hv|]. apply Hva. vm_compute. reflexivity.
Defined.

Lemma updatePost_visible_iff_visibleAt_witness :
  truthy (column (handler test_env test_clock2 store_hidden event_publish)
            "a1" "visible")
  = negb (is_nullish
            (column (handler test_env test_clock2 store_hidden event_publish)
               "a1" "visibleAt")).
Proof.
  rewrite (handler_update test_env test_clock2 store_hidden event_publish
             "a1") by (vm_compute; done).
  applied_update Happlied.
  exact (updatePost_visible_iff_visibleAt _ _ _ _ _ _ _ _ Happlied).
Defined.

Lemma updatePost_squad_source_witness :
  field (handler test_env test_clock2 store_hidden event_squad) "a1"
    "sourceId" = Some (VStr "unknown").
Proof.
  rewrite (handler_update test_env test_clock2 store_hidden event_squad
             "a1") by (vm_compute; done).
  applied_update Happlied.
  apply (updatePost_squad_source _ _ _ _ _ _ _ _ Happlied);
    [discriminate | vm_compute; reflexivity | discriminate].
Defined.

Lemma updatePost_keeps_title_and_source_witness :
  field (handler test_env test_clock2 store_hidden event_untitled) "a1"
    "title" = Some (VStr "Draft")
  ∧ field (handler test_env test_clock2 store_hidden event_untitled) "a1"
      "sourceId" = Some (VStr "src1").
Proof.
  rewrite (handler_update test_env test_clock2 store_hidden event_untitled
             "a1") by (vm_compute; done).
  applied_update Happlied.
  destruct (updatePost_keeps_title_and_source _ _ _ _ _ _ _ _ Happlied)
    as (Htitle & Hsource); [discriminate|].
  split.
  - apply Htitle; vm_compute; reflexivity.
  - apply Hsource; vm_compute; reflexivity.
Defined.

Lemma updatePost_applies_newer_witness :
  returned
    (updatePost test_env store_hello
       (fixedData (fixData test_env test_clock2 store_hello event_2024))
       "p1" ["a"; "b"] [] None) = Some RetUndefined
  ∧ field (handler test_env test_clock2 store_hello event_2024) "p1"
      "metadataChangedAt" = Some (VDate (Some 1704067200000)).
Proof.
  rewrite (handler_update test_env test_clock2 store_hello event_2024 "p1")
    by (vm_compute; done).
  change (fd_mergedKeywords _) with ["a"; "b"].
  change (fd_questions _) with (@nil string).
  change (fd_content_type _) with (@None string).
  applied_update Happlied.
  destruct (updatePost_applies_newer _ _ _ _ _ _ _ 1700000000000
              1704067200000 _ _ Happlied) as [_ Hstored];
    [vm_compute; reflexivity | vm_compute; reflexivity
    | vm_compute; reflexivity
    | unfold four_digit_year, isoMin, isoMax; lia
    | unfold four_digit_year, isoMin, isoMax; lia | lia |].
  split; [vm_compute; reflexivity | exact Hstored].
Defined.

Lemma updatePost_metadataChangedAt_forward_witness :
  ∃ t_stored t_incoming,
    column store_hello "p1" "metadataChangedAt" = VDate (Some t_stored)
    ∧ prop (fixedData (fixData test_env test_clock2 store_hello event_2024))
        "metadataChangedAt" = VDate (Some t_incoming)
    ∧ field (handler test_env test_clock2 store_hello event_2024) "p1"
        "metadataChangedAt" = Some (VDate (Some t_incoming))
    ∧ (four_digit_year t_stored → four_digit_year t_incoming →
       t_stored < t_incoming).
Proof.
  rewrite (handler_update test_env test_clock2 store_hello event_2024 "p1")
    by (vm_compute; done).
  applied_update Happlied.
  exact (updatePost_metadataChangedAt_forward _ _ _ _ _ _ _ _ Happlied).
Defined.

Lemma updatePost_other_type_noop_witness :
  handler test_env test_clock2 store_hidden event_as_share = store_hidden.
Proof.
  rewrite (handler_update test_env test_clock2 store_hidden event_as_share
             "a1") by (vm_compute; done).
  rewrite (updatePost_other_type_noop test_env _ _ _ _ _ _ PostType_Share);
    [reflexivity | reflexivity | vm_compute; discriminate].
Defined.

Lemma handler_unparseable_date_noop_witness :
  handler test_env test_clock2 store_hidden event_bad_date = store_hidden.
Proof.
  apply (handler_unparseable_date_noop test_env test_clock2 store_hidden
           event_bad_date "a1" "yesterday");
    [reflexivity | reflexivity | discriminate | reflexivity | discriminate
    | reflexivity].
Defined.

Lemma handler_rejection_redelivery_witness :
  handler test_env test_clock2
    (handler test_env test_clock store_submission event_failed) event_failed
  = handler test_env test_clock store_submission event_failed.
Proof. apply handler_rejection_redelivery. reflexivity. Defined.

Lemma handler_create_redelivery_witness :
  handler test_env test_clock2
    (handler test_env test_clock empty_store event_hello) event_hello
  = handler test_env test_clock empty_store event_hello.
Proof.
  apply (handler_create_redelivery test_env test_clock test_clock2 empty_store
           event_hello "http://x.com"); reflexivity.
Defined.

Lemma handler_update_redelivery_witness :
  handler test_env test_clock
    (handler test_env test_clock2 store_hidden event_publish) event_publish
  = handler test_env test_clock2 store_hidden event_publish.
Proof.
  apply (handler_update_redelivery test_env test_clock2 test_clock
           store_hidden event_publish "a1" "2024-01-01T00:00:00.000Z");
    [reflexivity | reflexivity | discriminate | reflexivity | discriminate].
Defined.

Lemma tagsStr_round_trip_witness :
  stored_keywords
    (prop (fixedData (fixData test_env test_clock empty_store event_hello))
       "tagsStr")
  = ["a"; "b"].
Proof.
  apply (tagsStr_round_trip test_env test_clock empty_store event_hello).
  change (Forall (λ k, k ≠ "" ∧ has_char "," k = false) ["a"; "b"]).
  repeat (apply Forall_cons_2; [split; [discriminate|reflexivity]|]).
  apply Forall_nil_2.
Defined.

Lemma created_post_privacy_witness :
  field (handler test_env test_clock store_hidden event_sourced) "p1"
    "private" = Some (VBool true)
  ∧ ∃ bag,
      field (handler test_env test_clock store_hidden event_sourced) "p1"
        "flags" = Some (VObj bag)
      ∧ bag !! "private" = Some (VBool true).
Proof.
  apply (created_post_privacy test_env test_clock store_hidden event_sourced
           _ "src1" true
           (transaction_committed test_env test_clock store_hidden
              event_sourced (Created RetUndefined)
              ltac:(vm_compute; reflexivity)));
    [reflexivity | discriminate | discriminate | vm_compute; reflexivity].
Defined.

Lemma created_post_origin_witness :
  field (handler test_env test_clock empty_store event_hello) "p1" "origin"
  = Some (VStr "crawler").
Proof.
  apply (created_post_origin test_env test_clock empty_store event_hello _
           (transaction_committed test_env test_clock empty_store event_hello
              (Created RetUndefined) ltac:(vm_compute; reflexivity))).
  left. reflexivity.
Defined.
